(** * The sales dashboard of [app.py]: cleaning and aggregation pipeline

    A shallow embedding of the script [app.py]: the column mapping of the
    sidebar, the in-place coercion of the sales and date columns, the
    [dropna] filter and the three aggregations behind the tabs, followed by
    the properties that the specification states about them.

    The script is a sequence of pandas calls.  A data frame is modelled as an
    ordered list of labelled rows, a row as a finite map from column names to
    cell values; a pandas call that can raise is a function into [result].
    A number is the rational it denotes ([Qc]); the sums of
    [groupby(...).sum()] are rounded as [float64] additions are.  The
    infinities and [nan] of [float64], and the wrap-around of [int64], are
    outside the model.  The calls that only draw (Streamlit, matplotlib)
    are left out: the model follows the data, and says nothing about an
    exception raised while drawing. *)

From Stdlib Require Import QArith Qcanon Ascii.
From stdpp Require Import sorting numbers gmap strings list.

Local Open Scope Z_scope.

(** ** Cell values *)

(** What a cell of the spreadsheet holds once it is read: nothing ([NaN],
    [None] and [NaT] are all [NA]), text, a number, or a point in time
    (nanoseconds since 1970-01-01, as in [datetime64[ns]]). *)
Inductive value :=
  | NA
  | Text (s : string)
  | Num (q : Qc)
  | Timestamp (ns : Z).

Global Instance value_eq_dec : EqDecision value.
Proof. solve_decision. Defined.

Global Instance value_inhabited : Inhabited value := populate NA.

Definition is_timestamp (v : value) : bool :=
  match v with Timestamp _ => true | _ => false end.

(** ** Exceptions and fallible calls *)

Inductive exn :=
  | KeyError (key : string)
  | TypeError (msg : string)
  | ValueError (msg : string)
  | IndexError (msg : string)
  | AttributeError (msg : string).

Inductive result (A : Type) :=
  | Ok (a : A)
  | Raise (e : exn).
Global Arguments Ok {A} a.
Global Arguments Raise {A} e.

Global Instance result_ret : MRet result := @Ok.
Global Instance result_bind : MBind result := λ A B f m,
  match m with Ok a => f a | Raise e => Raise e end.
Global Instance result_fmap : FMap result := λ A B f m,
  match m with Ok a => Ok (f a) | Raise e => Raise e end.

Global Instance exn_eq_dec : EqDecision exn.
Proof. solve_decision. Defined.

Global Instance result_eq_dec {A : Type} `{EqDecision A} : EqDecision (result A).
Proof. solve_decision. Defined.

(** The [errors=] keyword of [pd.to_numeric] and [pd.to_datetime]. *)
Inductive errors_mode := errors_raise | errors_coerce.

(** ** Data frames *)

Record DataFrame := {
  columns : list string;
  rows : list (nat * gmap string value)
}.

(** The cell of a row under a column; a column the row does not hold reads
    as missing. *)
Definition cell (r : gmap string value) (c : string) : value :=
  default NA (r !! c).

(** [df.index] *)
Definition index (df : DataFrame) : list nat := (rows df).*1.

(** [df[c]]: the values of column [c], top to bottom. *)
Definition getitem (df : DataFrame) (c : string) : result (list value) :=
  if decide (c ∈ columns df)
  then Ok ((λ ir, cell ir.2 c) <$> rows df)
  else Raise (KeyError c).

(** [df[c] = s], for a series [s] that carries the index of [df]. *)
Definition setitem (df : DataFrame) (c : string) (s : list value) : DataFrame :=
  {| columns := if decide (c ∈ columns df) then columns df else columns df ++ [c];
     rows := zip_with (λ ir v, (ir.1, <[c := v]> ir.2)) (rows df) s |}.

(** [df.dropna(subset=...)]: the rows with no missing value in any of the
    [subset] columns, in their order; a name in [subset] that is not a
    column is a [KeyError]. *)
Definition complete (subset : list string) (ir : nat * gmap string value) : Prop :=
  Forall (λ c, cell ir.2 c ≠ NA) subset.

Global Instance complete_dec subset ir : Decision (complete subset ir).
Proof. unfold complete. apply _. Defined.

Definition dropna (subset : list string) (df : DataFrame) : result DataFrame :=
  match list_find (λ c, c ∉ columns df) subset with
  | Some (_, c) => Raise (KeyError c)
  | None => Ok {| columns := columns df; rows := filter (complete subset) (rows df) |}
  end.

(** [series.dropna()] *)
Definition Series_dropna (s : list value) : list value :=
  filter (λ v, v ≠ NA) s.

(** [df.empty] for a frame that has columns; [series.empty]. *)
Definition empty_frame (df : DataFrame) : bool :=
  bool_decide (rows df = []).

(** ** Coercions *)

(** The parsers inside pandas are not part of this repository; the model
    takes them as an interface.  [parse_numeric] and [parse_datetime] read a
    text cell, [datetime_of_number] is the reading of a number as a count of
    nanoseconds since the epoch that [pd.to_datetime] applies to numeric
    input.  [None] is a value that cannot be converted. *)
Class Parsers := {
  parse_numeric : string → option Qc;
  parse_datetime : string → option Z;
  datetime_of_number : Qc → option Z
}.

(** A column read from the spreadsheet has dtype [datetime64[ns]] when all
    its cells are dates or blank; the model recovers the dtype from the
    contents. *)
Definition is_datetime64 (s : list value) : bool :=
  forallb (λ v, match v with Timestamp _ | NA => true | _ => false end) s
  && existsb is_timestamp s.

(** The integer behind [NaT]. *)
Definition iNaT : Z := - 2 ^ 63.

(** [values.view(np.int64)] on a [datetime64[ns]] array. *)
Definition view_int64 (v : value) : value :=
  match v with
  | Timestamp ns => Num (Qc_of_Z ns)
  | NA => Num (Qc_of_Z iNaT)
  | _ => v
  end.

Section coercions.
Context `{Parsers}.

(** One cell of an object or numeric column under [pd.to_numeric]. *)
Definition numeric_of_value (v : value) : option value :=
  match v with
  | NA => Some NA
  | Num q => Some (Num q)
  | Text s => Num <$> parse_numeric s
  | Timestamp _ => None
  end.

(** One cell under [pd.to_datetime]. *)
Definition datetime_of_value (v : value) : option value :=
  match v with
  | NA => Some NA
  | Timestamp ns => Some (Timestamp ns)
  | Text s => Timestamp <$> parse_datetime s
  | Num q => Timestamp <$> datetime_of_number q
  end.

(** A conversion applied down a column: with [errors="coerce"] a value
    that cannot be converted becomes missing, with [errors="raise"] it
    aborts the call. *)
Definition convert_column (conv : value → option value)
    (s : list value) (errors : errors_mode) : result (list value) :=
  match errors with
  | errors_coerce => Ok ((λ v, default NA (conv v)) <$> s)
  | errors_raise =>
      match mapM conv s with
      | Some s' => Ok s'
      | None => Raise (ValueError "Unable to parse value")
      end
  end.

(** [pd.to_numeric(s, errors=...)]: a [datetime64] column is viewed as
    its integer nanoseconds; otherwise each cell is converted. *)
Definition to_numeric (s : list value) (errors : errors_mode) : result (list value) :=
  if is_datetime64 s then Ok (view_int64 <$> s)
  else convert_column numeric_of_value s errors.

(** [pd.to_datetime(s, errors=...)], cell by cell.  A timestamp is the
    wall-clock time the cell shows.  Date texts whose UTC offsets differ
    from one cell to another are outside the model: pandas 2 leaves such
    a column as Python objects, pandas 3 refuses it. *)
Definition to_datetime (s : list value) (errors : errors_mode) : result (list value) :=
  convert_column datetime_of_value s errors.
End coercions.

(** ** Column mapping in the sidebar *)

(** [cols.index(col_name)]: the first position of [col_name]. *)
Definition list_index (col_name : string) (cols : list string) : option nat :=
  fst <$> list_find (λ c, c = col_name) cols.

(** [default_index], line 38: the guard [col_name in cols] keeps
    [cols.index] from raising. *)
Definition default_index (col_name : string) (cols : list string) : nat :=
  if decide (col_name ∈ cols) then default 0%nat (list_index col_name cols) else 0%nat.

(** [st.sidebar.selectbox(label, options=..., index=...)] before the user
    touches the control: the option at [index]; nothing when there is no
    such option. *)
Definition selectbox (options : list string) (index : nat) : option string :=
  options !! index.

(** The binding a role gets by default. *)
Definition defaultBinding (preferredName : string) (availableColumns : list string)
    : option string :=
  selectbox availableColumns (default_index preferredName availableColumns).

Record bindings := {
  category_col : string;
  sales_col : string;
  date_col : string;
  satisfaction_col : string
}.

(** Lines 35 to 64 with every control left at its default. *)
Definition sidebar (df : DataFrame) : option bindings :=
  let all_cols := columns df in
  category_col ← defaultBinding "Category" all_cols;
  sales_col ← defaultBinding "Sales" all_cols;
  date_col ← defaultBinding "Date Ordered" all_cols;
  satisfaction_col ← defaultBinding "Service Satisfaction Rating" all_cols;
  Some {| category_col := category_col; sales_col := sales_col;
          date_col := date_col; satisfaction_col := satisfaction_col |}.

(** Every bound name is a column of the frame: what choosing from the
    options [all_cols] guarantees. *)
Definition bound_in (df : DataFrame) (b : bindings) : Prop :=
  category_col b ∈ columns df ∧ sales_col b ∈ columns df ∧
  date_col b ∈ columns df ∧ satisfaction_col b ∈ columns df.

(** ** Aggregation primitives *)

Local Open Scope Qc_scope.

(** The numbers of a numeric column; a blank adds nothing to a sum
    ([skipna]). *)
Definition float64_values (s : list value) : list Qc :=
  omap (λ v, match v with Num q => Some q | _ => None end) s.

(** *** Rounding

    A [float64] is a rational [m * 2 ^ e] with [|m| < 2 ^ 53] and
    [-1074 ≤ e]; an addition returns the nearest of them, ties going to the
    even [m].  [floor_log2 p d] is the position of the leading bit of
    [p / d], for positive [p] and [d]. *)
Definition floor_log2 (p d : Z) : Z :=
  let k := (Z.log2 p - Z.log2 d)%Z in
  if decide (p * 2 ^ Z.max 0 (- k) < d * 2 ^ Z.max 0 k)%Z then (k - 1)%Z else k.

(** [n / d] rounded to the nearest integer, a half to the even one. *)
Definition round_half_even (n d : Z) : Z :=
  let f := (n `div` d)%Z in
  let r := (n `mod` d)%Z in
  if decide (2 * r < d)%Z then f
  else if decide (d < 2 * r)%Z then (f + 1)%Z
  else if Z.even f then f else (f + 1)%Z.

(** The [float64] nearest to [q]; [2 ^ s] is the spacing of the
    [float64]s around [q]. *)
Definition binary64 (q : Qc) : Qc :=
  let n := Qnum q in
  let d := Z.pos (Qden q) in
  if decide (n = 0%Z) then 0 else
  let s := (Z.max (floor_log2 (Z.abs n) d) (-1022) - 52)%Z in
  if decide (0 ≤ s)%Z then Qc_of_Z (round_half_even n (d * 2 ^ s) * 2 ^ s)
  else Q2Qc (Qmake (round_half_even (n * 2 ^ (- s)) d) (Z.to_pos (2 ^ (- s)))).

(** *** The sum of a group

    The loop of [group_sum] behind [groupby(...).sum()]: each group keeps
    its running sum [sumx] and the rounding error [compensation] of its
    last addition (Kahan summation).  A column of dtype [int64] adds
    without rounding; the two agree as long as the sums stay within
    [2 ^ 53]. *)
Definition kahan_step (acc : Qc * Qc) (val : Qc) : Qc * Qc :=
  let '(sumx, compensation) := acc in
  let y := binary64 (val - compensation) in
  let t := binary64 (sumx + y) in
  (t, binary64 (binary64 (t - sumx) - y)).

Definition group_sum (s : list value) : Qc :=
  (foldl kahan_step (0, 0) (float64_values s)).1.

(** The cells a numeric column holds.  Summing a column with any other
    cell is a [TypeError]; pandas decides this by the dtype of the column,
    the model by its cells. *)
Definition summable (v : value) : Prop :=
  match v with NA | Num _ => True | _ => False end.

Global Instance summable_dec v : Decision (summable v).
Proof. destruct v; simpl; apply _. Defined.

(** A grouping key; rows whose key is missing belong to no group. *)
Definition key_of (v : value) : option value :=
  match v with NA => None | _ => Some v end.

(** The order in which [groupby] lists keys of a column: numbers, then
    dates, then text, each kind in its own order. *)
Definition value_rank (v : value) : nat :=
  match v with Num _ => 0 | Timestamp _ => 1 | Text _ => 2 | NA => 3 end%nat.

Definition value_le (a b : value) : Prop :=
  match a, b with
  | Num p, Num q => p ≤ q
  | Timestamp s, Timestamp t => (s ≤ t)%Z
  | Text s, Text t => String.leb s t
  | _, _ => (value_rank a < value_rank b)%nat
  end.

Global Instance value_le_dec : RelDecision value_le.
Proof. intros [] []; simpl; apply _. Defined.

(** Orders on the entries of a series: by label, and by value from the
    largest down. *)
Definition by_label {K V : Type} (le : relation K) : relation (K * V) :=
  λ a b, le a.1 b.1.

Definition by_value_descending {K V : Type} (le : relation V) : relation (K * V) :=
  λ a b, le b.2 a.2.

Global Instance by_label_dec {K V} (le : relation K) `{!RelDecision le} :
  RelDecision (by_label (V:=V) le).
Proof. intros a b. unfold by_label. apply _. Defined.

Global Instance by_value_descending_dec {K V} (le : relation V) `{!RelDecision le} :
  RelDecision (by_value_descending (K:=K) le).
Proof. intros a b. unfold by_value_descending. apply _. Defined.

Section groupby.
Context {K : Type} `{EqDecision K} (le : relation K) `{!RelDecision le}.

(** The rows that have a key, as pairs of key and summed value. *)
Definition keyed_rows (keys : list (option K)) (vals : list value) : list (K * value) :=
  omap (λ kv, (λ k, (k, kv.2)) <$> kv.1) (zip keys vals).

(** The distinct keys, sorted. *)
Definition group_keys (keyed : list (K * value)) : list K :=
  merge_sort le (remove_dups keyed.*1).

(** The values of the rows under key [k]. *)
Definition group (k : K) (keyed : list (K * value)) : list value :=
  (filter (λ kv, kv.1 = k) keyed).*2.

(** [df.groupby(keys)[col].sum()]: one total per key, in key order; rows
    without a key are left out ([dropna=True]). *)
Definition groupby_sum (keys : list (option K)) (vals : list value)
    : result (list (K * Qc)) :=
  if decide (Forall summable vals) then
    let keyed := keyed_rows keys vals in
    Ok ((λ k, (k, group_sum (group k keyed))) <$> group_keys keyed)
  else Raise (TypeError "datetime64 type does not support sum operations").

(** [series.sort_index()] *)
Definition sort_index {V : Type} (s : list (K * V)) : list (K * V) :=
  merge_sort (by_label le) s.

(** [series.value_counts()]: occurrences per distinct value, the most
    frequent first. *)
Definition value_counts (s : list K) : list (K * nat) :=
  merge_sort (by_value_descending Nat.le)
    ((λ k, (k, length (filter (λ x, x = k) s))) <$> remove_dups s).
End groupby.

(** [series.sort_values(ascending=False)] *)
Definition sort_values_descending {K : Type} (s : list (K * Qc)) : list (K * Qc) :=
  merge_sort (by_value_descending Qcle) s.

Section extrema.
Context {K V : Type} (lt : relation V) `{!RelDecision lt}.

(** The first entry that holds the largest value, scanning from [best]. *)
Fixpoint argmax_from (best : K * V) (s : list (K * V)) : K * V :=
  match s with
  | [] => best
  | x :: s => argmax_from (if decide (lt best.2 x.2) then x else best) s
  end.

(** [series.idxmax()] *)
Definition idxmax (s : list (K * V)) : result K :=
  match s with
  | [] => Raise (ValueError "attempt to get argmax of an empty sequence")
  | x :: s => Ok (argmax_from x s).1
  end.

(** [series.max()]; [None] is the [nan] of an empty series. *)
Definition Series_max (s : list (K * V)) : option V :=
  match s with
  | [] => None
  | x :: s => Some (argmax_from x s).2
  end.
End extrema.

(** [series.iloc[i]], negative positions counting from the end. *)
Definition iloc {A : Type} (s : list A) (i : Z) : result A :=
  let pos := if decide (0 ≤ i)%Z then i else (Z.of_nat (length s) + i)%Z in
  match (if decide (0 ≤ pos)%Z then s !! Z.to_nat pos else None) with
  | Some a => Ok a
  | None => Raise (IndexError "single positional indexer is out-of-bounds")
  end.

(** [series.dt.date]: the calendar day of each timestamp, as days since
    1970-01-01. *)
Definition ns_per_day : Z := 86400 * 10 ^ 9.

(** The day a timestamp falls on; [NaT] has none. *)
Definition day_of (v : value) : option Z :=
  match v with Timestamp ns => Some (ns `div` ns_per_day)%Z | _ => None end.

Definition dt_date (s : list value) : result (list (option Z)) :=
  if forallb (λ v, match v with Timestamp _ | NA => true | _ => false end) s
  then Ok (day_of <$> s)
  else Raise (AttributeError "Can only use .dt accessor with datetimelike values").

(** [series.reset_index()] on a series called [name] whose index is called
    [index_name]: the index becomes a column next to the values, and a
    frame does not take a second column of a name it has. *)
Definition reset_index {A : Type} (index_name name : string) (s : A) : result A :=
  if decide (index_name = name)
  then Raise (ValueError ("cannot insert " +:+ index_name +:+ ", already exists"))
  else Ok s.

(** ** What the dashboard shows *)

Inductive trend_label := increased | decreased | stayed_about_the_same.

(** The text under a chart: a warning box, or one of the interpretations
    with the values substituted into it. *)
Inductive message :=
  | warning (text : string)
  | top_category_text (top_category : value) (top_sales : option Qc)
  | trend_text (first_date last_date : Z) (t : trend_label)
  | single_date_text
  | most_common_rating_text (most_common_rating : Qc) (count_most_common : option nat).

Global Instance trend_label_eq_dec : EqDecision trend_label.
Proof. solve_decision. Defined.

Global Instance message_eq_dec : EqDecision message.
Proof. solve_decision. Defined.

Record dashboard := {
  tab1_view : list (value * Qc) * message;
  tab2_view : option (list (Z * Qc)) * message;
  tab3_view : option (list (Qc * nat)) * message
}.

(** Lines 152 to 157 *)
Definition trend (first_val last_val : Qc) : trend_label :=
  if decide (first_val < last_val) then increased
  else if decide (last_val < first_val) then decreased
  else stayed_about_the_same.

(** Lines 149 to 174: the interpretation of the daily series. *)
Definition daily_interpretation (daily_sales : list (Z * Qc)) : result message :=
  if decide (1 < length daily_sales)%nat then
    first ← iloc daily_sales 0;
    last ← iloc daily_sales (-1);
    Ok (trend_text first.1 last.1 (trend first.2 last.2))
  else Ok single_date_text.

(** ** The script *)

Section script.
Context `{Parsers}.

(** Lines 71 and 74: the sales column, then the date column, rewritten
    in place. *)
Definition coerce_columns (df : DataFrame) (b : bindings) : result DataFrame :=
  sales ← getitem df (sales_col b);
  sales ← to_numeric sales errors_coerce;
  let df := setitem df (sales_col b) sales in
  dates ← getitem df (date_col b);
  dates ← to_datetime dates errors_coerce;
  Ok (setitem df (date_col b) dates).

(** Line 77 *)
Definition df_clean (df : DataFrame) (b : bindings) : result DataFrame :=
  dropna [category_col b; sales_col b; date_col b] df.

(** Lines 86 to 90 *)
Definition category_sales (df_clean : DataFrame) (b : bindings)
    : result (list (value * Qc)) :=
  categories ← getitem df_clean (category_col b);
  sales ← getitem df_clean (sales_col b);
  totals ← groupby_sum value_le (key_of <$> categories) sales;
  Ok (sort_values_descending totals).

(** Tab 1, lines 86 to 118.  The series of line 90 is called after the
    sales column and its index after the category column; [cat_df] is the
    table of line 95. *)
Definition tab1 (df_clean : DataFrame) (b : bindings)
    : result (list (value * Qc) * message) :=
  category_sales ← category_sales df_clean b;
  cat_df ← reset_index (category_col b) (sales_col b) category_sales;
  if bool_decide (category_sales = []) then
    Ok (cat_df, warning "No valid category/sales data available after cleaning.")
  else
    top_category ← idxmax Qclt category_sales;
    let top_sales := Series_max Qclt category_sales in
    Ok (cat_df, top_category_text top_category top_sales).

(** Line 124 *)
Definition time_df (df_clean : DataFrame) (b : bindings) : result DataFrame :=
  dropna [date_col b; sales_col b] df_clean.

(** Lines 129 to 133 *)
Definition daily_sales (time_df : DataFrame) (b : bindings) : result (list (Z * Qc)) :=
  dates ← getitem time_df (date_col b);
  days ← dt_date dates;
  sales ← getitem time_df (sales_col b);
  totals ← groupby_sum Z.le days sales;
  Ok (sort_index Z.le totals).

(** The rest of tab 2 once the rows to plot are chosen, lines 126 to
    174.  The index of the daily series carries the name of the date
    column; [daily_df] is the table of line 138. *)
Definition tab2_of (time_df : DataFrame) (b : bindings)
    : result (option (list (Z * Qc)) * message) :=
  if empty_frame time_df then
    Ok (None, warning "No valid date/sales data available to plot time series.")
  else
    daily_sales ← daily_sales time_df b;
    daily_df ← reset_index (date_col b) (sales_col b) daily_sales;
    text ← daily_interpretation daily_sales;
    Ok (Some daily_df, text).

(** Tab 2, lines 124 to 174 *)
Definition tab2 (df_clean : DataFrame) (b : bindings)
    : result (option (list (Z * Qc)) * message) :=
  time_df ← time_df df_clean b;
  tab2_of time_df b.

(** Tab 2 with line 124 left out: the aggregation reads the cleaned rows
    directly. *)
Definition tab2_without_refilter (df_clean : DataFrame) (b : bindings)
    : result (option (list (Z * Qc)) * message) :=
  tab2_of df_clean b.

(** Line 180 *)
Definition sat_series (df : DataFrame) (b : bindings) : result (list value) :=
  Series_dropna <$> getitem df (satisfaction_col b).

(** Lines 185 and 186 *)
Definition rating_counts (sat_series : list value) : result (list (Qc * nat)) :=
  coerced ← to_numeric sat_series errors_coerce;
  let sat_series := float64_values (Series_dropna coerced) in
  Ok (sort_index Qcle (value_counts sat_series)).

(** Tab 3, lines 180 to 211; [df] is the frame as lines 71 and 74 left
    it.  [value_counts] (pandas 2 and later) calls its result ["count"]
    and its index after the satisfaction column; [rating_df] is the table
    of line 191. *)
Definition tab3 (df : DataFrame) (b : bindings)
    : result (option (list (Qc * nat)) * message) :=
  sat_series ← sat_series df b;
  if bool_decide (sat_series = []) then
    Ok (None, warning "No satisfaction rating data available.")
  else
    rating_counts ← rating_counts sat_series;
    rating_df ← reset_index (satisfaction_col b) "count" rating_counts;
    most_common_rating ← idxmax Nat.lt rating_counts;
    let count_most_common := Series_max Nat.lt rating_counts in
    Ok (Some rating_df, most_common_rating_text most_common_rating count_most_common).

(** One run of the script on the loaded frame with the chosen bindings;
    the first exception ends the run. *)
Definition app (df : DataFrame) (b : bindings) : result dashboard :=
  df ← coerce_columns df b;
  df_clean ← df_clean df b;
  tab1 ← tab1 df_clean b;
  tab2 ← tab2 df_clean b;
  tab3 ← tab3 df b;
  Ok {| tab1_view := tab1; tab2_view := tab2; tab3_view := tab3 |}.

(** The ratings table a run computes from the frame it has at line 180. *)
Definition run_rating_counts (df : DataFrame) (b : bindings)
    : result (list (Qc * nat)) :=
  df ← coerce_columns df b;
  sat_series ← sat_series df b;
  rating_counts sat_series.

(** *** The aggregators as the specification words them *)

(** The numeric, non-missing values of a column of the raw dataset. *)
Definition numeric_values (rawDataset : DataFrame) (col : string) : result (list Qc) :=
  column ← getitem rawDataset col;
  let present := filter (λ v, v ≠ NA) column in
  coerced ← to_numeric present errors_coerce;
  Ok (float64_values coerced).

(** [ratingDistribution(rawDataset, satisfactionCol)] of section 4.4:
    missing values dropped, the rest coerced to numbers with the failures
    dropped, one count per exact value, ascending by value. *)
Definition ratingDistribution (rawDataset : DataFrame) (satisfactionCol : string)
    : result (list (Qc * nat)) :=
  ratings ← numeric_values rawDataset satisfactionCol;
  Ok (merge_sort (by_label Qcle)
        ((λ r, (r, length (filter (λ x, x = r) ratings))) <$> remove_dups ratings)).
End script.

(** ** A concrete reading of text cells

    Enough of the pandas parsers to run the script on data: decimal numbers
    with an optional sign and fraction, and ISO calendar dates
    [YYYY-MM-DD]. *)

Module iso.
Local Open Scope Z_scope.

Definition digit (a : ascii) : option Z :=
  let n := Z.of_N (N_of_ascii a) in
  if decide (48 ≤ n ≤ 57) then Some (n - 48) else None.

Fixpoint digits_from (acc : Z) (s : string) : option Z :=
  match s with
  | EmptyString => Some acc
  | String a s => d ← digit a; digits_from (10 * acc + d) s
  end.

(** A non-empty run of decimal digits. *)
Definition natural (s : string) : option Z :=
  match s with EmptyString => None | _ => digits_from 0 s end.

(** The text before the first dot, and the text after it if there is
    one. *)
Fixpoint split_dot (s : string) : string * option string :=
  match s with
  | EmptyString => (EmptyString, None)
  | String a s =>
      if decide (a = "."%char) then (EmptyString, Some s)
      else let '(whole, frac) := split_dot s in (String a whole, frac)
  end.

Definition unsigned_decimal (s : string) : option Qc :=
  let '(whole, frac) := split_dot s in
  w ← natural whole;
  match frac with
  | None => Some (Qc_of_Z w)
  | Some frac =>
      f ← natural frac;
      let scale := 10 ^ Z.of_nat (String.length frac) in
      Some (Q2Qc (Qmake (w * scale + f) (Z.to_pos scale)))
  end.

Definition numeric (s : string) : option Qc :=
  match s with
  | String "-" s => Qcopp <$> unsigned_decimal s
  | _ => unsigned_decimal s
  end.

Definition leap_year (y : Z) : bool :=
  bool_decide (y mod 4 = 0 ∧ (y mod 100 ≠ 0 ∨ y mod 400 = 0)).

Definition days_in_month (y m : Z) : Z :=
  if decide (m = 2) then (if leap_year y then 29 else 28)
  else if decide (m = 4 ∨ m = 6 ∨ m = 9 ∨ m = 11) then 30 else 31.

(** Days from 1970-01-01 to the given day of the proleptic Gregorian
    calendar. *)
Definition days_from_civil (y m d : Z) : Z :=
  let y := if decide (m ≤ 2) then y - 1 else y in
  let era := y `div` 400 in
  let yoe := y - era * 400 in
  let mp := (m + 9) `mod` 12 in
  let doy := (153 * mp + 2) `div` 5 + d - 1 in
  let doe := yoe * 365 + yoe `div` 4 - yoe `div` 100 + doy in
  era * 146097 + doe - 719468.

Definition datetime (s : string) : option Z :=
  if decide (String.length s = 10%nat ∧
             String.get 4 s = Some "-"%char ∧ String.get 7 s = Some "-"%char) then
    y ← natural (String.substring 0 4 s);
    m ← natural (String.substring 5 2 s);
    d ← natural (String.substring 8 2 s);
    if decide (1 ≤ m ≤ 12 ∧ 1 ≤ d ≤ days_in_month y m)
    then Some (days_from_civil y m d * ns_per_day) else None
  else None.

(** A number read as nanoseconds since the epoch, when it fits. *)
Definition of_number (q : Qc) : option Z :=
  let ns := Qnum q `quot` Zpos (Qden q) in
  if decide (iNaT < ns < - iNaT) then Some ns else None.

Definition parsers : Parsers :=
  {| parse_numeric := numeric;
     parse_datetime := datetime;
     datetime_of_number := of_number |}.
End iso.

(** ** Example data *)

(** A frame from its header and its rows of cells, labelled 0, 1, 2, ... as
    [pd.read_excel] labels them. *)
Definition frame_of (header : list string) (cells : list (list value)) : DataFrame :=
  {| columns := header;
     rows := imap (λ i vs, (i, list_to_map (zip header vs))) cells |}.

Definition juice_header : list string :=
  ["Category"; "Sales"; "Date Ordered"; "Service Satisfaction Rating"].

Definition preferred : bindings :=
  {| category_col := "Category"; sales_col := "Sales";
     date_col := "Date Ordered"; satisfaction_col := "Service Satisfaction Rating" |}.

(** Midnight of a day given as days since the epoch; 19723 is 2024-01-01. *)
Definition midnight (day : Z) : value := Timestamp (day * ns_per_day).

(** The rows of scenarios 1 and 2, with the ratings of scenario 3 spread
    over six rows; the last three rows miss a category, a sale or a date. *)
Definition juice_bar : DataFrame :=
  frame_of juice_header
    [ [Text "Juice"; Num (Qc_of_Z 10); midnight 19723; Num (Qc_of_Z 5)];
      [Text "Smoothie"; Text "20"; Text "2024-01-01"; Num (Qc_of_Z 5)];
      [Text "Juice"; Num (Qc_of_Z 5); midnight 19724; Text "bad"];
      [NA; Num (Qc_of_Z 7); midnight 19724; Num (Qc_of_Z 3)];
      [Text "Juice"; Text "n/a"; midnight 19725; NA];
      [Text "Smoothie"; Num (Qc_of_Z 1); Text "soon"; Num (Qc_of_Z 5)] ].

(** A sheet without the preferred date and rating columns, so that both
    roles fall back to the first column, which holds the order dates as
    text. *)
Definition when_sheet : DataFrame :=
  frame_of ["When"; "Sales"] [ [Text "2024-01-01"; Num (Qc_of_Z 10)] ].

Definition when_bindings : bindings :=
  {| category_col := "When"; sales_col := "Sales";
     date_col := "When"; satisfaction_col := "When" |}.

(** A sheet on which nobody gave a numeric rating. *)
Definition unrated : DataFrame :=
  frame_of juice_header
    [ [Text "Juice"; Num (Qc_of_Z 10); midnight 19723; Text "bad"] ].

(** A sheet whose payment dates, one of them blank, are bound to both the
    sales and the satisfaction role. *)
Definition paid_sheet : DataFrame :=
  frame_of ["Day"; "Paid on"]
    [ [Text "2024-01-01"; midnight 19723];
      [Text "2024-01-02"; NA] ].

Definition paid_bindings : bindings :=
  {| category_col := "Day"; sales_col := "Paid on";
     date_col := "Day"; satisfaction_col := "Paid on" |}.

(** ** Notions used in the statements *)

Definition is_Ok {A : Type} (r : result A) : Prop := ∃ a, r = Ok a.

(** The rows of a frame all hold a category, a sale and a date. *)
Definition cleaned (df : DataFrame) (b : bindings) : Prop :=
  Forall (complete [category_col b; sales_col b; date_col b]) (rows df).

(** The keys under which the two summaries group a row. *)
Definition category_of (b : bindings) (ir : nat * gmap string value) : option value :=
  key_of (cell ir.2 (category_col b)).

Definition date_of (b : bindings) (ir : nat * gmap string value) : option Z :=
  day_of (cell ir.2 (date_col b)).

(** *** Sums as the specification means them

    The sum of a list of numbers, without rounding; the number in a cell,
    the sale of a row and the sum of the sales of some rows. *)
Definition Qc_sum (l : list Qc) : Qc := foldr Qcplus 0 l.

Definition number_of (v : value) : Qc :=
  match v with Num q => q | _ => 0 end.


Definition sale_of (b : bindings) (ir : nat * gmap string value) : Qc :=
  number_of (cell ir.2 (sales_col b)).

Definition total_sales (b : bindings) (l : list (nat * gmap string value)) : Qc :=
  Qc_sum (sale_of b <$> l).

(** The rows of a category. *)
Definition in_category (b : bindings) (k : value) (ir : nat * gmap string value) : Prop :=
  cell ir.2 (category_col b) = k.

Global Instance in_category_dec b k ir : Decision (in_category b k ir).
Proof. unfold in_category. apply _. Defined.

(** The calendar date of a point in time, in days since 1970-01-01: a day
    has 86400 seconds of [10 ^ 9] nanoseconds, and the time of day is
    dropped. *)
Definition calendar_day (v : value) : option Z :=
  match v with
  | Timestamp ns => Some (ns `div` 86400000000000)%Z
  | _ => None
  end.

(** The rows of a calendar date. *)
Definition on_day (b : bindings) (d : Z) (ir : nat * gmap string value) : Prop :=
  calendar_day (cell ir.2 (date_col b)) = Some d.

Global Instance on_day_dec b d ir : Decision (on_day b d ir).
Proof. unfold on_day. apply _. Defined.

(** The sales column is numeric and the date column is [datetime64], on
    rows that have both cells. *)
Definition numeric_sales (b : bindings) (l : list (nat * gmap string value)) : Prop :=
  Forall (λ ir, match cell ir.2 (sales_col b) with Num _ => True | _ => False end) l.

Definition datetime_dates (b : bindings) (l : list (nat * gmap string value)) : Prop :=
  Forall (λ ir, match cell ir.2 (date_col b) with Timestamp _ => True | _ => False end) l.

Global Instance numeric_sales_dec b l : Decision (numeric_sales b l).
Proof.
  unfold numeric_sales. apply Forall_dec. intros ir.
  destruct (cell ir.2 (sales_col b)); apply _.
Defined.

Global Instance datetime_dates_dec b l : Decision (datetime_dates b l).
Proof.
  unfold datetime_dates. apply Forall_dec. intros ir.
  destruct (cell ir.2 (date_col b)); apply _.
Defined.

(** A cell that holds a whole number. *)
Definition whole (v : value) : option Z :=
  match v with
  | Num q => if decide (Qden q = 1%positive) then Some (Qnum q) else None
  | _ => None
  end.

(** The sum of the absolute values of the whole numbers in some cells. *)
Definition magnitude (s : list value) : Z :=
  foldr (λ v acc, Z.abs (default 0 (whole v)) + acc)%Z 0%Z s.

(** Sales that [float64] adds without rounding, in whatever order: whole
    numbers whose absolute values add up to at most [2 ^ 53]. *)
Definition whole_sales (b : bindings) (l : list (nat * gmap string value)) : Prop :=
  Forall (λ ir, is_Some (whole (cell ir.2 (sales_col b)))) l ∧
  (magnitude ((λ ir, cell ir.2 (sales_col b)) <$> l) ≤ 2 ^ 53)%Z.

Global Instance whole_sales_dec b l : Decision (whole_sales b l).
Proof. unfold whole_sales. apply _. Defined.

(** The sum of a list of [float64]s as [float64] additions from the left
    give it. *)
Definition float64_total (l : list Qc) : Qc :=
  foldl (λ acc x, binary64 (acc + x)) 0 l.

(** A row of one frame next to the row it comes from in another: same
    label, same cells outside the sales and date columns. *)
Definition same_outside (b : bindings) (ir' ir : nat * gmap string value) : Prop :=
  ir'.1 = ir.1 ∧ ∀ c, c ≠ sales_col b → c ≠ date_col b → ir'.2 !! c = ir.2 !! c.

Section notions.
Context `{Parsers}.

(** What becomes of one cell of the column [s] under [pd.to_numeric];
    [None] when the cell cannot be converted. *)
Definition numeric_in (s : list value) (v : value) : option value :=
  if is_datetime64 s then Some (view_int64 v) else numeric_of_value v.

(** The cell that [errors="coerce"] leaves in place of [v]. *)
Definition numeric_cell (s : list value) (v : value) : value :=
  default NA (numeric_in s v).

Definition datetime_cell (v : value) : value :=
  default NA (datetime_of_value v).

(** A row after lines 71 and 74, given what the two calls do to a cell
    of their column. *)
Definition coerce_row (b : bindings) (num dat : value → value)
    (r : gmap string value) : gmap string value :=
  let r := <[sales_col b := num (cell r (sales_col b))]> r in
  <[date_col b := dat (cell r (date_col b))]> r.

(** The frame after lines 71 and 74, row by row. *)
Definition coerced (df : DataFrame) (b : bindings) : DataFrame :=
  let sales := (λ ir, cell ir.2 (sales_col b)) <$> rows df in
  {| columns := columns df;
     rows := (λ ir, (ir.1, coerce_row b (numeric_cell sales) datetime_cell ir.2))
               <$> rows df |}.

(** The ratings table of a run is the distribution of the raw column: it
    is the table that [ratingDistribution] gives on the dataset as
    loaded, ascending by rating, with counts that add up to the number
    of numeric, non-missing ratings of the raw column. *)
Definition rating_claim (df : DataFrame) (b : bindings) : Prop :=
  ∃ rating_counts ratings,
    run_rating_counts df b = Ok rating_counts ∧
    ratingDistribution df (satisfaction_col b) = Ok rating_counts ∧
    numeric_values df (satisfaction_col b) = Ok ratings ∧
    StronglySorted Qclt rating_counts.*1 ∧
    sum_list rating_counts.*2 = length ratings.
End notions.

(** The juice bar sheet after lines 71 and 74, and after line 77, read
    with the parsers of [iso]. *)
Definition juice_bar_coerced : DataFrame :=
  @coerced iso.parsers juice_bar preferred.

Definition juice_bar_clean : DataFrame :=
  {| columns := juice_header;
     rows := filter (complete ["Category"; "Sales"; "Date Ordered"])
               (rows juice_bar_coerced) |}.



(** The [float64] that a decimal is read as. *)
Definition float64 (q : Q) : value := Num (binary64 (Q2Qc q)).

(** A sheet with prices that are not whole numbers: 0.10, 0.20 and 2.20,
    the first and the last for a juice on 2024-01-01. *)
Definition price_sheet : DataFrame :=
  frame_of juice_header
    [ [Text "Juice"; float64 (1 # 10); midnight 19723; Num (Qc_of_Z 5)];
      [Text "Smoothie"; float64 (2 # 10); midnight 19724; Num (Qc_of_Z 4)];
      [Text "Juice"; float64 (22 # 10); midnight 19723; Num (Qc_of_Z 5)] ].

Definition price_clean : DataFrame :=
  {| columns := juice_header;
     rows := filter (complete ["Category"; "Sales"; "Date Ordered"])
               (rows (@coerced iso.parsers price_sheet preferred)) |}.

(** A sheet with neither a category nor a sales column: both roles fall
    back to the first column, the date role finds its own. *)
Definition tally_sheet : DataFrame :=
  frame_of ["Amount"; "Date Ordered"] [ [Num (Qc_of_Z 5); midnight 19723] ].

Definition tally_bindings : bindings :=
  {| category_col := "Amount"; sales_col := "Amount";
     date_col := "Date Ordered"; satisfaction_col := "Amount" |}.

Definition tally_clean : DataFrame :=
  {| columns := ["Amount"; "Date Ordered"];
     rows := filter (complete ["Amount"; "Amount"; "Date Ordered"])
               (rows (@coerced iso.parsers tally_sheet tally_bindings)) |}.

(** A sheet that keeps its ratings in a column called "count". *)
Definition count_sheet : DataFrame :=
  frame_of ["Category"; "Sales"; "Date Ordered"; "count"]
    [ [Text "Juice"; Num (Qc_of_Z 10); midnight 19723; Num (Qc_of_Z 5)] ].

Definition count_bindings : bindings :=
  {| category_col := "Category"; sales_col := "Sales";
     date_col := "Date Ordered"; satisfaction_col := "count" |}.

(** A sheet with none of the preferred column names: every role falls
    back to its first column. *)
Definition amount_sheet : DataFrame :=
  frame_of ["Amount"; "Note"] [ [Num (Qc_of_Z 5); Text "cash"] ].

Definition amount_bindings : bindings :=
  {| category_col := "Amount"; sales_col := "Amount";
     date_col := "Amount"; satisfaction_col := "Amount" |}.

Definition amount_coerced : DataFrame :=
  @coerced iso.parsers amount_sheet amount_bindings.

Definition amount_clean : DataFrame :=
  {| columns := ["Amount"; "Note"];
     rows := filter (complete ["Amount"; "Amount"; "Amount"]) (rows amount_coerced) |}.

(** The first row of the juice bar sheet. *)
Definition juice_bar_first_row : nat * gmap string value :=
  (0%nat, list_to_map (zip juice_header
            [Text "Juice"; Num (Qc_of_Z 10); midnight 19723; Num (Qc_of_Z 5)])).

(** The binding a role gets on a frame whose first column is [c]. *)
Definition default_column (columns : list string) (c : string) (preferredName : string)
    : string :=
  if decide (preferredName ∈ columns) then preferredName else c.

(** The occurrences of a rating among the ratings. *)
Definition occurrences (r : Qc) (ratings : list Qc) : nat :=
  length (filter (λ x, x = r) ratings).

Section run.
Context `{Parsers}.

(** The script from the sidebar on, with every control left at its
    default; nothing when the sheet has no column to choose from. *)
Definition run_with_defaults (df : DataFrame) : option (result dashboard) :=
  app df <$> sidebar df.

(** The satisfaction series of line 180 and the ratings lines 185 leaves
    of it, on the frame tab 3 reads. *)
Definition present_ratings (df : DataFrame) (b : bindings) : list value :=
  Series_dropna ((λ ir, cell ir.2 (satisfaction_col b)) <$> rows df).

Definition numeric_ratings (df : DataFrame) (b : bindings) : list Qc :=
  float64_values (numeric_cell (present_ratings df b) <$> present_ratings df b).
End run.

(** Closed decidable goals are settled by evaluating their decision
    procedure. *)
Ltac by_evaluation := apply (bool_decide_unpack _); vm_compute; exact I.

(** * Properties *)

(** ** Column mapping *)

Lemma list_index_first (col_name : string) (cols : list string) :
  col_name ∈ cols →
  ∃ i, list_index col_name cols = Some i ∧ cols !! i = Some col_name.
Proof.
  intros Hin. unfold list_index.
  destruct (list_find (λ c, c = col_name) cols) as [[i c]|] eqn:E.
  - apply list_find_Some in E as (Hi & -> & _). by exists i.
  - apply list_find_None in E. rewrite Forall_forall in E.
    by destruct (E col_name Hin).
Qed.

(** C7: on a non-empty list of columns the default binding is a member
    of the list; it is the preferred name when that is a member, and the
    first column otherwise. *)
Theorem defaultBinding_member (preferredName : string) (availableColumns : list string) :
  availableColumns ≠ [] →
  ∃ c, defaultBinding preferredName availableColumns = Some c ∧
       c ∈ availableColumns ∧
       (preferredName ∈ availableColumns → c = preferredName) ∧
       (preferredName ∉ availableColumns → head availableColumns = Some c).
Proof.
  intros Hne. unfold defaultBinding, selectbox, default_index.
  destruct (decide (preferredName ∈ availableColumns)) as [Hin|Hnin].
  - destruct (list_index_first _ _ Hin) as (i & -> & Hi). simpl.
    exists preferredName. by repeat split.
  - destruct availableColumns as [|c0 cols]; [done|]. simpl.
    exists c0. split; [done|]. split; [apply list_elem_of_here|]. by split.
Qed.

Lemma defaultBinding_scenario_5 :
  ["Type"; "Sales"] ≠ [] ∧
  ∃ c, defaultBinding "Category" ["Type"; "Sales"] = Some c ∧
       c ∈ ["Type"; "Sales"] ∧
       ("Category" ∈ ["Type"; "Sales"] → c = "Category") ∧
       ("Category" ∉ ["Type"; "Sales"] → head ["Type"; "Sales"] = Some c).
Proof.
  split; [discriminate|].
  apply (defaultBinding_member "Category" ["Type"; "Sales"]). discriminate.
Defined.

Example defaultBinding_type : defaultBinding "Category" ["Type"; "Sales"] = Some "Type".
Proof. reflexivity. Qed.

(** ** Trend of the daily series *)

Lemma trend_increased (first_val last_val : Qc) :
  trend first_val last_val = increased ↔ first_val < last_val.
Proof. unfold trend. repeat case_decide; naive_solver. Qed.

Lemma trend_decreased (first_val last_val : Qc) :
  trend first_val last_val = decreased ↔ last_val < first_val.
Proof.
  unfold trend. repeat case_decide; split; try done.
  intros Hlt. destruct (Qclt_not_le _ _ Hlt). by apply Qclt_le_weak.
Qed.

Lemma trend_same (first_val last_val : Qc) :
  trend first_val last_val = stayed_about_the_same ↔ last_val = first_val.
Proof.
  unfold trend. repeat case_decide; split; try done.
  - intros ->. by destruct (Qclt_not_eq first_val first_val).
  - intros ->. by destruct (Qclt_not_eq first_val first_val).
  - intros _. apply Qcle_antisym; by apply Qcnot_lt_le.
Qed.

Lemma iloc_last {A} (s : list A) (a : A) : last s = Some a → iloc s (-1) = Ok a.
Proof.
  intros Hlast. unfold iloc.
  assert (0 < length s)%nat as Hlen by (destruct s; [done | simpl; lia]).
  destruct (decide (0 ≤ -1)%Z) as [?|_]; [lia|].
  rewrite decide_True by lia.
  rewrite last_lookup in Hlast.
  replace (Z.to_nat (Z.of_nat (length s) + -1)) with (pred (length s)) by lia.
  by rewrite Hlast.
Qed.

(** C8: a daily series of more than one entry is classified by its first
    and last totals, [increased] exactly when the last is larger,
    [decreased] exactly when it is smaller, and [stayed_about_the_same]
    exactly when they are equal; a series of one entry gets the
    single-date text and no trend. *)
Theorem trend_compares_first_and_last (daily_sales : list (Z * Qc)) :
  ((1 < length daily_sales)%nat →
   ∃ first_entry last_entry,
     head daily_sales = Some first_entry ∧ last daily_sales = Some last_entry ∧
     daily_interpretation daily_sales
       = Ok (trend_text first_entry.1 last_entry.1 (trend first_entry.2 last_entry.2)) ∧
     (trend first_entry.2 last_entry.2 = increased ↔ first_entry.2 < last_entry.2) ∧
     (trend first_entry.2 last_entry.2 = decreased ↔ last_entry.2 < first_entry.2) ∧
     (trend first_entry.2 last_entry.2 = stayed_about_the_same
        ↔ last_entry.2 = first_entry.2)) ∧
  (length daily_sales = 1%nat → daily_interpretation daily_sales = Ok single_date_text).
Proof.
  split.
  - intros Hlen. unfold daily_interpretation. rewrite decide_True by done.
    destruct daily_sales as [|e rest] eqn:E; [simpl in Hlen; lia|].
    destruct (last (e :: rest)) as [l|] eqn:Hlast.
    2: { rewrite last_lookup in Hlast. apply lookup_ge_None in Hlast.
         simpl in Hlast. lia. }
    exists e, l. split; [done|]. split; [done|].
    split; [|auto using trend_increased, trend_decreased, trend_same].
    assert (iloc (e :: rest) 0 = Ok e) as -> by reflexivity.
    cbn [mbind result_bind]. by rewrite (iloc_last _ _ Hlast).
  - intros Hlen. unfold daily_interpretation. rewrite decide_False by lia. done.
Qed.

Lemma trend_scenario_2 :
  ∃ first_entry last_entry,
    head [(19723%Z, Qc_of_Z 30); (19724%Z, Qc_of_Z 5)] = Some first_entry ∧
    last [(19723%Z, Qc_of_Z 30); (19724%Z, Qc_of_Z 5)] = Some last_entry ∧
    daily_interpretation [(19723%Z, Qc_of_Z 30); (19724%Z, Qc_of_Z 5)]
      = Ok (trend_text first_entry.1 last_entry.1 (trend first_entry.2 last_entry.2)) ∧
    (trend first_entry.2 last_entry.2 = increased ↔ first_entry.2 < last_entry.2) ∧
    (trend first_entry.2 last_entry.2 = decreased ↔ last_entry.2 < first_entry.2) ∧
    (trend first_entry.2 last_entry.2 = stayed_about_the_same
       ↔ last_entry.2 = first_entry.2).
Proof.
  apply (proj1 (trend_compares_first_and_last
                  [(19723%Z, Qc_of_Z 30); (19724%Z, Qc_of_Z 5)])).
  simpl. lia.
Defined.

Example trend_decreased_scenario_2 :
  daily_interpretation [(19723%Z, Qc_of_Z 30); (19724%Z, Qc_of_Z 5)]
  = Ok (trend_text 19723 19724 decreased).
Proof. reflexivity. Qed.

(** ** Coercion *)

Section coercion_facts.
Context `{Parsers}.

Lemma to_numeric_coerce (s : list value) :
  to_numeric s errors_coerce = Ok (numeric_cell s <$> s).
Proof.
  unfold to_numeric, numeric_cell, numeric_in.
  by destruct (is_datetime64 s).
Qed.

Lemma to_datetime_coerce (s : list value) :
  to_datetime s errors_coerce = Ok (datetime_cell <$> s).
Proof. reflexivity. Qed.

End coercion_facts.

(** ** Cleaning *)

Section cleaning_facts.
Context `{Parsers}.

Lemma getitem_Ok (df : DataFrame) (c : string) (s : list value) :
  getitem df c = Ok s ↔ c ∈ columns df ∧ s = (λ ir, cell ir.2 c) <$> rows df.
Proof.
  unfold getitem. case_decide; split.
  - by intros [= <-].
  - by intros [_ ->].
  - done.
  - by intros [? _].
Qed.

Lemma setitem_column (df : DataFrame) (c : string) (g : value → value) :
  c ∈ columns df →
  setitem df c (g <$> ((λ ir, cell ir.2 c) <$> rows df))
  = {| columns := columns df;
       rows := (λ ir, (ir.1, <[c := g (cell ir.2 c)]> ir.2)) <$> rows df |}.
Proof.
  intros Hc. unfold setitem. rewrite decide_True by done. f_equal.
  rewrite <- list_fmap_compose, zip_with_fmap_r, zip_with_diag. done.
Qed.

Lemma coerce_columns_bound (df : DataFrame) (b : bindings) :
  sales_col b ∈ columns df → date_col b ∈ columns df →
  coerce_columns df b = Ok (coerced df b).
Proof.
  intros Hs Hd. unfold coerce_columns.
  rewrite (proj2 (getitem_Ok df (sales_col b) _) (conj Hs eq_refl)).
  cbn [mbind result_bind]. rewrite to_numeric_coerce. cbn [mbind result_bind].
  rewrite setitem_column by done.
  unfold getitem at 1. cbn [columns rows]. rewrite decide_True by done.
  cbn [mbind result_bind]. rewrite to_datetime_coerce. cbn [mbind result_bind].
  set (df1 := {| columns := columns df; rows := _ |}).
  replace ((λ ir, cell ir.2 (date_col b)) <$> _)
    with ((λ ir, cell ir.2 (date_col b)) <$> rows df1) by done.
  rewrite (setitem_column df1) by done. unfold coerced, df1. cbn [columns rows].
  f_equal. rewrite <- list_fmap_compose. done.
Qed.

Lemma coerce_columns_Ok (df : DataFrame) (b : bindings) (df' : DataFrame) :
  coerce_columns df b = Ok df' →
  df' = coerced df b ∧ sales_col b ∈ columns df ∧ date_col b ∈ columns df.
Proof.
  intros Hrun.
  assert (sales_col b ∈ columns df) as Hs.
  { unfold coerce_columns, getitem in Hrun. by case_decide. }
  assert (date_col b ∈ columns df) as Hd.
  { unfold coerce_columns in Hrun.
    rewrite (proj2 (getitem_Ok df (sales_col b) _) (conj Hs eq_refl)) in Hrun.
    cbn [mbind result_bind] in Hrun. rewrite to_numeric_coerce in Hrun.
    cbn [mbind result_bind] in Hrun. rewrite setitem_column in Hrun by done.
    unfold getitem in Hrun. cbn [columns] in Hrun. by case_decide. }
  rewrite coerce_columns_bound in Hrun by done. naive_solver.
Qed.

Lemma dropna_Ok (subset : list string) (df dfc : DataFrame) :
  dropna subset df = Ok dfc ↔
  Forall (λ c, c ∈ columns df) subset ∧
  dfc = {| columns := columns df; rows := filter (complete subset) (rows df) |}.
Proof.
  unfold dropna.
  destruct (list_find (λ c, c ∉ columns df) subset) as [[i c]|] eqn:E.
  - apply list_find_Some in E as (Hi & Hc & _). split; [done|].
    intros [Hall _]. destruct Hc. exact (Forall_lookup_1 _ _ _ _ Hall Hi).
  - apply list_find_None in E. split.
    + intros [= <-]. split; [|done].
      eapply Forall_impl; [exact E|]. intros c Hc. simpl in Hc.
      by destruct (decide (c ∈ columns df)).
    + by intros [_ ->].
Qed.

Lemma complete_three (b : bindings) (ir : nat * gmap string value) :
  complete [category_col b; sales_col b; date_col b] ir ↔
  cell ir.2 (category_col b) ≠ NA ∧ cell ir.2 (sales_col b) ≠ NA ∧
  cell ir.2 (date_col b) ≠ NA.
Proof. unfold complete. rewrite !Forall_cons, Forall_nil. tauto. Qed.

Lemma filter_implied {A} (P Q : A → Prop)
    `{!∀ x, Decision (P x)} `{!∀ x, Decision (Q x)} (l : list A) :
  (∀ x, P x → Q x) → filter Q (filter P l) = filter P l.
Proof.
  intros HPQ. rewrite list_filter_filter. apply list_filter_iff.
  intros x. split; [tauto|auto].
Qed.

Lemma filter_fmap_comm {A B} (f : A → B) (P : B → Prop)
    `{!∀ x, Decision (P x)} (l : list A) :
  filter P (f <$> l) = f <$> filter (P ∘ f) l.
Proof.
  induction l as [|x l IH]; [done|]. csimpl.
  rewrite !filter_cons. simpl. destruct (decide (P (f x))); csimpl; by rewrite IH.
Qed.

Lemma coerce_row_outside (b : bindings) (num dat : value → value)
    (r : gmap string value) (c : string) :
  c ≠ sales_col b → c ≠ date_col b → coerce_row b num dat r !! c = r !! c.
Proof.
  intros Hs Hd. unfold coerce_row. by rewrite !lookup_insert_ne.
Qed.

(** The frame that lines 71 to 77 hand to the tabs. *)
Lemma cleaning_rows (df : DataFrame) (b : bindings) (df' dfc : DataFrame) :
  coerce_columns df b = Ok df' → df_clean df' b = Ok dfc →
  bound_in df {| category_col := category_col b; sales_col := sales_col b;
                 date_col := date_col b; satisfaction_col := sales_col b |} ∧
  df' = coerced df b ∧
  dfc = {| columns := columns df;
           rows := filter (complete [category_col b; sales_col b; date_col b])
                     (rows (coerced df b)) |}.
Proof.
  intros Hrun Hclean. apply coerce_columns_Ok in Hrun as (-> & Hs & Hd).
  apply dropna_Ok in Hclean as [Hcols ->].
  rewrite !Forall_cons in Hcols. destruct Hcols as (Hc & _).
  by repeat split.
Qed.

Lemma df_clean_cleaned (df dfc : DataFrame) (b : bindings) :
  df_clean df b = Ok dfc → cleaned dfc b.
Proof.
  intros [_ ->]%dropna_Ok. unfold cleaned. cbn [rows].
  apply Forall_forall. by intros ir [? _]%list_elem_of_filter.
Qed.

(** C3: with bindings chosen among the columns, the script reaches the
    cleaned frame, and a row is in it exactly when it is a row of the
    frame after the numeric coercion of the sales column and the temporal
    coercion of the date column whose category, sales and date cells are
    all present; so every row of the cleaned frame has all three. *)
Theorem df_clean_keeps_complete_rows (df : DataFrame) (b : bindings) :
  bound_in df b →
  ∃ dfc, coerce_columns df b = Ok (coerced df b) ∧
         df_clean (coerced df b) b = Ok dfc ∧
         (∀ ir, ir ∈ rows dfc ↔
                ir ∈ rows (coerced df b) ∧
                cell ir.2 (category_col b) ≠ NA ∧
                cell ir.2 (sales_col b) ≠ NA ∧
                cell ir.2 (date_col b) ≠ NA) ∧
         Forall (λ ir, cell ir.2 (category_col b) ≠ NA ∧
                       cell ir.2 (sales_col b) ≠ NA ∧
                       cell ir.2 (date_col b) ≠ NA) (rows dfc).
Proof.
  intros (Hc & Hs & Hd & _).
  eexists. split; [by apply coerce_columns_bound|].
  split.
  { unfold df_clean. apply dropna_Ok. split; [|reflexivity].
    by repeat constructor. }
  cbn [rows]. split.
  - intros ir. rewrite list_elem_of_filter, complete_three. tauto.
  - apply Forall_forall. intros ir [Hir _]%list_elem_of_filter.
    by apply complete_three.
Qed.

Lemma time_df_id (dfc : DataFrame) (b : bindings) (df' : DataFrame) :
  df_clean df' b = Ok dfc → time_df dfc b = Ok dfc.
Proof.
  intros [Hcols ->]%dropna_Ok. unfold time_df. apply dropna_Ok. cbn [columns rows].
  rewrite !Forall_cons in Hcols. destruct Hcols as (_ & Hs & Hd & _).
  split; [by repeat constructor|]. f_equal. symmetry. apply filter_implied.
  intros ir. unfold complete. rewrite !Forall_cons. tauto.
Qed.

(** C9: on the cleaned frame the filter of line 124 drops nothing, so
    the frame tab 2 aggregates is the cleaned frame itself and tab 2
    computes what it would compute without that line. *)
Theorem refilter_is_noop (df : DataFrame) (b : bindings) (df' dfc : DataFrame) :
  coerce_columns df b = Ok df' → df_clean df' b = Ok dfc →
  time_df dfc b = Ok dfc ∧ tab2 dfc b = tab2_without_refilter dfc b.
Proof.
  intros _ Hclean. pose proof (time_df_id _ _ _ Hclean) as Hid.
  split; [done|]. unfold tab2, tab2_without_refilter. by rewrite Hid.
Qed.

(** C10: the cleaned frame has the columns of the loaded one, and its
    rows are, in order, a selection of the loaded rows, each with its
    label and with every cell outside the sales and date columns as
    loaded. *)
Theorem cleaning_touches_two_columns (df : DataFrame) (b : bindings)
    (df' dfc : DataFrame) :
  coerce_columns df b = Ok df' → df_clean df' b = Ok dfc →
  columns dfc = columns df ∧
  ∃ kept, kept `sublist_of` rows df ∧ Forall2 (same_outside b) (rows dfc) kept.
Proof.
  intros Hrun Hclean.
  destruct (cleaning_rows _ _ _ _ Hrun Hclean) as (_ & _ & ->).
  split; [done|]. cbn [rows]. unfold coerced. cbn [rows].
  rewrite filter_fmap_comm. eexists. split; last first.
  - apply Forall2_fmap_l, Forall_Forall2_diag, Forall_forall.
    intros ir _. split; [done|]. intros c Hs Hd. simpl.
    by apply coerce_row_outside.
  - apply sublist_filter.
Qed.
End cleaning_facts.

(** ** Sums that do not round *)











(** ** Grouping and summing *)




Lemma magnitude_nonneg (s : list value) : (0 ≤ magnitude s)%Z.
Proof. induction s as [|v s IH]; simpl; [done|]. fold (magnitude s). lia. Qed.



Lemma fmap_fst_pair {A B} (h : A → B) (l : list A) : ((λ k, (k, h k)) <$> l).*1 = l.
Proof. rewrite <- list_fmap_compose. by rewrite (list_fmap_ext _ id), list_fmap_id. Qed.

Section groupby_facts.
Context {K : Type} `{EqDecision K} (le : relation K) `{!RelDecision le}.




Lemma group_keys_NoDup (keyed : list (K * value)) : NoDup (group_keys le keyed).
Proof.
  unfold group_keys. rewrite merge_sort_Permutation. apply NoDup_remove_dups.
Qed.


Lemma groupby_sum_summable (keys : list (option K)) (vals : list value) :
  Forall summable vals → is_Ok (groupby_sum le keys vals).
Proof. intros Hv. unfold groupby_sum. rewrite decide_True by done. by eexists. Qed.

(** The groups in terms of the rows they are made from: [f] reads the
    key of a row and [g] the cell to sum. *)
Lemma keyed_rows_fmap {A} (f : A → option K) (g : A → value) (l : list A) :
  keyed_rows (f <$> l) (g <$> l) = omap (λ x, (λ k, (k, g x)) <$> f x) l.
Proof.
  unfold keyed_rows. induction l as [|x l IH]; [done|]. csimpl.
  rewrite <- IH. by destruct (f x).
Qed.

Lemma group_omap {A} (f : A → option K) (g : A → value) (l : list A) (k : K) :
  group k (omap (λ x, (λ k, (k, g x)) <$> f x) l)
  = g <$> filter (λ x, f x = Some k) l.
Proof.
  unfold group. induction l as [|x l IH]; [done|]. csimpl.
  rewrite (filter_cons (λ x, f x = Some k)).
  destruct (decide (f x = Some k)) as [Hk|Hk].
  - rewrite Hk. csimpl. rewrite filter_cons_True by done. csimpl. by rewrite IH.
  - destruct (f x) as [k'|]; csimpl; [|done].
    rewrite filter_cons_False; [done|]. simpl. congruence.
Qed.

Lemma keys_omap {A} (f : A → option K) (g : A → value) (l : list A) (k : K) :
  k ∈ (omap (λ x, (λ k, (k, g x)) <$> f x) l).*1 ↔ ∃ x, x ∈ l ∧ f x = Some k.
Proof.
  rewrite list_elem_of_fmap. split.
  - intros ([k' v] & -> & (x & Hx & Hf)%list_elem_of_omap).
    exists x. split; [done|]. destruct (f x); by simplify_eq/=.
  - intros (x & Hx & Hf). exists (k, g x). split; [done|].
    apply list_elem_of_omap. exists x. split; [done|]. by rewrite Hf.
Qed.


(** What [groupby(...).sum()] returns when it returns: one entry for
    each key that some row has, the keys in order, each with the sum that
    [group_sum] makes of the cells under that key, top to bottom. *)
Lemma groupby_sum_Ok {A} (f : A → option K) (g : A → value) (l : list A)
    (totals : list (K * Qc)) :
  groupby_sum le (f <$> l) (g <$> l) = Ok totals →
  NoDup totals.*1 ∧
  (∀ k, k ∈ totals.*1 ↔ ∃ x, x ∈ l ∧ f x = Some k) ∧
  totals = (λ k, (k, group_sum (g <$> filter (λ x, f x = Some k) l)))
             <$> totals.*1.
Proof.
  unfold groupby_sum. case_decide; [|done]. intros [= <-].
  rewrite keyed_rows_fmap, fmap_fst_pair.
  split; [apply group_keys_NoDup|]. split.
  - intros k. unfold group_keys.
    rewrite merge_sort_Permutation, elem_of_remove_dups. apply keys_omap.
  - apply list_fmap_ext. intros i k _. simpl. by rewrite group_omap.
Qed.

End groupby_facts.

Global Instance by_value_descending_total {K V} (le : relation V) `{!Total le} :
  Total (by_value_descending (K:=K) le).
Proof. intros a b. unfold by_value_descending. destruct (total le a.2 b.2); auto. Qed.

Global Instance by_value_descending_trans {K V} (le : relation V) `{!Transitive le} :
  Transitive (by_value_descending (K:=K) le).
Proof. intros a b c Hab Hbc. unfold by_value_descending in *. by etrans. Qed.

Global Instance by_label_total {K V} (le : relation K) `{!Total le} :
  Total (by_label (V:=V) le).
Proof. intros a b. unfold by_label. apply (total le). Qed.

Global Instance by_label_trans {K V} (le : relation K) `{!Transitive le} :
  Transitive (by_label (V:=V) le).
Proof. intros a b c Hab Hbc. unfold by_label in *. by etrans. Qed.

(** ** The category and daily summaries *)

Lemma bind_Ok {A B} (m : result A) (f : A → result B) (y : B) :
  m ≫= f = Ok y ↔ ∃ x, m = Ok x ∧ f x = Ok y.
Proof.
  destruct m as [x|e]; simpl; split.
  - intros Hf. by exists x.
  - by intros (x' & [= <-] & Hf).
  - done.
  - by intros (x' & [=] & _).
Qed.

Lemma numeric_sales_summable (b : bindings) (l : list (nat * gmap string value)) :
  numeric_sales b l → Forall summable ((λ ir, cell ir.2 (sales_col b)) <$> l).
Proof.
  intros Hnum. apply Forall_fmap. eapply Forall_impl; [exact Hnum|].
  intros ir Hir. simpl in *. by destruct (cell ir.2 (sales_col b)).
Qed.


Lemma category_of_in_category (b : bindings) (k : value) (ir : nat * gmap string value) :
  cell ir.2 (category_col b) ≠ NA →
  category_of b ir = Some k ↔ in_category b k ir.
Proof.
  intros Hna. unfold category_of, in_category, key_of.
  destruct (cell ir.2 (category_col b)); naive_solver.
Qed.

Lemma cleaned_category (dfc : DataFrame) (b : bindings) (ir : nat * gmap string value) :
  cleaned dfc b → ir ∈ rows dfc → cell ir.2 (category_col b) ≠ NA.
Proof.
  intros Hclean Hir. unfold cleaned in Hclean. rewrite Forall_forall in Hclean.
  by apply Hclean, complete_three in Hir as (Hcat & _).
Qed.


Lemma dt_date_Ok (s : list value) (days : list (option Z)) :
  dt_date s = Ok days →
  Forall (λ v, v = NA ∨ ∃ ns, v = Timestamp ns) s ∧ days = day_of <$> s.
Proof.
  unfold dt_date.
  destruct (forallb _ s) eqn:Hall; [|done]. intros [= <-]. split; [|done].
  apply Is_true_eq_left, forallb_True in Hall.
  eapply Forall_impl; [exact Hall|]. intros [] Hv; simpl in Hv; by eauto.
Qed.


Lemma day_of_calendar_day (v : value) : day_of v = calendar_day v.
Proof. by destruct v. Qed.




Lemma filter_Forall {A} (P : A → Prop) `{!∀ x, Decision (P x)} (l : list A) :
  Forall P l → filter P l = l.
Proof.
  induction 1 as [|x l Hx _ IH]; [done|]. by rewrite filter_cons_True, IH.
Qed.



Section summaries.
Context `{Parsers}.

Lemma datetime_cell_shape (v : value) :
  datetime_cell v = NA ∨ ∃ ns, datetime_cell v = Timestamp ns.
Proof.
  unfold datetime_cell. destruct v as [|t|q|ns]; simpl; eauto.
  - destruct (parse_datetime t); simpl; eauto.
  - destruct (datetime_of_number q); simpl; eauto.
Qed.

Lemma cell_insert_eq (r : gmap string value) (c : string) (v : value) :
  cell (<[c := v]> r) c = v.
Proof. unfold cell. by rewrite lookup_insert_eq. Qed.

Lemma cell_insert_ne (r : gmap string value) (c c' : string) (v : value) :
  c ≠ c' → cell (<[c := v]> r) c' = cell r c'.
Proof. intros Hne. unfold cell. by rewrite lookup_insert_ne. Qed.

Lemma coerced_date_cell (df : DataFrame) (b : bindings) (ir : nat * gmap string value) :
  ir ∈ rows (coerced df b) →
  cell ir.2 (date_col b) = NA ∨ ∃ ns, cell ir.2 (date_col b) = Timestamp ns.
Proof.
  unfold coerced. cbn [rows]. intros (ir0 & -> & _)%list_elem_of_fmap.
  unfold coerce_row. cbn [snd]. rewrite cell_insert_eq.
  apply datetime_cell_shape.
Qed.

(** With the sales and date roles on one column the sales cells of the
    cleaned rows are timestamps, and summing them is a [TypeError]. *)
Lemma category_sales_of_dates (df : DataFrame) (b : bindings) (df' dfc : DataFrame) :
  coerce_columns df b = Ok df' → df_clean df' b = Ok dfc →
  sales_col b = date_col b → rows dfc ≠ [] →
  category_sales dfc b
  = Raise (TypeError "datetime64 type does not support sum operations").
Proof.
  intros Hrun Hclean Heq Hrows.
  destruct (cleaning_rows _ _ _ _ Hrun Hclean) as ((Hc & Hs & _) & _ & ->).
  unfold category_sales, getitem. cbn [columns rows] in *.
  rewrite !decide_True by done. cbn [mbind result_bind].
  unfold groupby_sum. rewrite decide_False; [done|].
  intros Hall. rewrite Forall_fmap in Hall.
  destruct (filter _ _) as [|ir rest] eqn:E; [done|].
  assert (ir ∈ filter (complete [category_col b; sales_col b; date_col b])
                 (rows (coerced df b))) as [Hir Hin]%list_elem_of_filter
    by (rewrite E; left).
  apply Forall_cons in Hall as [Hsum _]. simpl in Hsum.
  apply complete_three in Hir as (_ & _ & Hdate).
  rewrite Heq in Hsum.
  destruct (coerced_date_cell df b ir Hin) as [?|[ns Hns]]; [done|].
  by rewrite Hns in Hsum.
Qed.
End summaries.

(** ** The rating distribution *)

Section counting.
Context {K : Type} `{EqDecision K}.

Lemma sum_list_fmap_plus {A} (f g : A → nat) (l : list A) :
  sum_list ((λ x, f x + g x)%nat <$> l)
  = (sum_list (f <$> l) + sum_list (g <$> l))%nat.
Proof. induction l as [|x l IH]; csimpl; [done|]. rewrite IH. lia. Qed.

Lemma sum_list_zero {A} (l : list A) : sum_list ((λ _, 0%nat) <$> l) = 0%nat.
Proof. induction l as [|x l IH]; csimpl; [done|]. by rewrite IH. Qed.

Lemma sum_list_indicator (k0 : K) (ks : list K) :
  NoDup ks → k0 ∈ ks →
  sum_list ((λ k, if decide (k0 = k) then 1 else 0)%nat <$> ks) = 1%nat.
Proof.
  induction 1 as [|k ks Hk _ IH]; [by intros ?%not_elem_of_nil|].
  intros Hin. csimpl. destruct (decide (k0 = k)) as [->|Hne].
  - rewrite (list_fmap_ext _ (λ _, 0%nat)), sum_list_zero; [done|].
    intros i k' Hi. rewrite decide_False; [done|].
    intros <-. apply Hk. by eapply list_elem_of_lookup_2.
  - apply elem_of_cons in Hin as [?|Hin]; [done|]. by rewrite IH.
Qed.

(** The counts of distinct values that cover a list add up to its
    length. *)
Lemma count_partition (ks l : list K) :
  NoDup ks → (∀ x, x ∈ l → x ∈ ks) →
  sum_list ((λ k, length (filter (λ x, x = k) l)) <$> ks) = length l.
Proof.
  intros Hnd. induction l as [|y l IH]; intros Hcover.
  - apply sum_list_zero.
  - rewrite (list_fmap_ext _
      (λ k, (if decide (y = k) then 1 else 0) + length (filter (λ x, x = k) l))%nat).
    2: { intros i k _. rewrite filter_cons. by destruct (decide (y = k)). }
    rewrite sum_list_fmap_plus, sum_list_indicator, IH.
    + done.
    + intros x Hin. apply Hcover. by right.
    + done.
    + apply Hcover. by left.
Qed.
End counting.

Lemma StronglySorted_Qclt (l : list Qc) :
  StronglySorted Qcle l → NoDup l → StronglySorted Qclt l.
Proof.
  induction 1 as [|x l _ IH Hx]; intros Hnd; [constructor|].
  apply NoDup_cons in Hnd as [Hnin Hnd]. constructor; [by apply IH|].
  rewrite Forall_forall in Hx. apply Forall_forall. intros y Hy.
  destruct (Qcle_lt_or_eq _ _ (Hx y Hy)) as [?| ->]; done.
Qed.

(** Sorting a table by its labels gives the same table whatever order
    its rows came in. *)
Lemma merge_sort_by_label_unique {V} (f : Qc → V) (ks : list Qc) (l : list (Qc * V)) :
  l ≡ₚ (λ k, (k, f k)) <$> ks →
  merge_sort (by_label Qcle) l = merge_sort (by_label Qcle) ((λ k, (k, f k)) <$> ks).
Proof.
  intros Hperm.
  apply (StronglySorted_unique_strong (by_label Qcle)).
  - intros x1 x2 Hx1 Hx2 H12 H21.
    rewrite merge_sort_Permutation, Hperm in Hx1.
    rewrite merge_sort_Permutation in Hx2.
    apply list_elem_of_fmap in Hx1 as (k1 & -> & _).
    apply list_elem_of_fmap in Hx2 as (k2 & -> & _).
    unfold by_label in *. simpl in *. by rewrite (Qcle_antisym _ _ H12 H21).
  - apply StronglySorted_merge_sort; apply _.
  - apply StronglySorted_merge_sort; apply _.
  - by rewrite !merge_sort_Permutation.
Qed.

Section ratings.
Context `{Parsers}.

Lemma float64_values_dropna (s : list value) :
  float64_values (Series_dropna s) = float64_values s.
Proof.
  unfold float64_values, Series_dropna.
  induction s as [|v s IH]; [done|]. rewrite filter_cons.
  destruct v; csimpl; rewrite ?IH; done.
Qed.

Lemma getitem_coerced_outside (df : DataFrame) (b : bindings) (c : string) :
  c ≠ sales_col b → c ≠ date_col b → getitem (coerced df b) c = getitem df c.
Proof.
  intros Hs Hd. unfold getitem, coerced. cbn [columns rows].
  case_decide; [|done]. f_equal. rewrite <- list_fmap_compose.
  apply list_fmap_ext. intros i ir _. simpl. unfold cell.
  by rewrite coerce_row_outside.
Qed.

(** The table of lines 185 and 186, and the distribution the
    specification describes, on the same series. *)
Lemma rating_counts_table (s : list value) :
  let ratings := float64_values (numeric_cell s <$> s) in
  let table := merge_sort (by_label Qcle)
                 ((λ r, (r, length (filter (λ x, x = r) ratings)))
                    <$> remove_dups ratings) in
  rating_counts s = Ok table ∧
  StronglySorted Qclt table.*1 ∧
  sum_list table.*2 = length ratings.
Proof.
  intros ratings table. split; [|split].
  - unfold rating_counts. rewrite to_numeric_coerce. cbn [mbind result_bind].
    rewrite float64_values_dropna. fold ratings. f_equal.
    unfold sort_index, value_counts, table.
    apply merge_sort_by_label_unique, merge_sort_Permutation.
  - assert (table.*1 ≡ₚ remove_dups ratings) as Hkeys.
    { unfold table. rewrite merge_sort_Permutation, <- list_fmap_compose.
      by rewrite (list_fmap_ext _ id), list_fmap_id. }
    apply StronglySorted_Qclt.
    + apply (StronglySorted_fmap fst (by_label Qcle) Qcle); [done|].
      apply StronglySorted_merge_sort; apply _.
    + rewrite Hkeys. apply NoDup_remove_dups.
  - unfold table. rewrite merge_sort_Permutation, <- list_fmap_compose.
    apply count_partition; [apply NoDup_remove_dups|].
    intros x. by rewrite elem_of_remove_dups.
Qed.

(** C4, as the code has it: when the satisfaction role is bound to a
    column that lines 71 and 74 do not rewrite (neither the sales nor the
    date column), the ratings table of a run is the distribution of the
    raw column: missing and non-numeric ratings dropped, ascending by
    rating, counts adding up to the number of numeric ratings. *)
Theorem rating_counts_from_raw_column (df : DataFrame) (b : bindings) :
  bound_in df b →
  satisfaction_col b ≠ sales_col b → satisfaction_col b ≠ date_col b →
  rating_claim df b.
Proof.
  intros (_ & Hs & Hd & Hsat) Hne_s Hne_d. unfold rating_claim.
  set (s := Series_dropna ((λ ir, cell ir.2 (satisfaction_col b)) <$> rows df)).
  destruct (rating_counts_table s) as (Htable & Hsorted & Hcount).
  eexists _, _. split; [|split; [|split; [|split]]].
  - unfold run_rating_counts. rewrite coerce_columns_bound by done.
    cbn [mbind result_bind]. unfold sat_series.
    rewrite getitem_coerced_outside by done.
    rewrite (proj2 (getitem_Ok df (satisfaction_col b) _) (conj Hsat eq_refl)).
    exact Htable.
  - unfold ratingDistribution, numeric_values.
    rewrite (proj2 (getitem_Ok df (satisfaction_col b) _) (conj Hsat eq_refl)).
    cbn [mbind result_bind]. rewrite to_numeric_coerce. reflexivity.
  - unfold numeric_values.
    rewrite (proj2 (getitem_Ok df (satisfaction_col b) _) (conj Hsat eq_refl)).
    cbn [mbind result_bind]. rewrite to_numeric_coerce. reflexivity.
  - exact Hsorted.
  - exact Hcount.
Qed.
End ratings.

(** ** The empty paths of the three tabs *)

Section empty_paths.
Context `{Parsers}.

(** Tab 1 with no cleaned row: an empty table and the warning.  The
    sales and date roles are on different columns, so that the sales
    column is numeric; on an empty frame the model cannot tell a column of
    dates, which pandas refuses to sum, from a column of numbers.  The
    category and sales roles are on different columns, or line 93 would
    raise. *)
Lemma tab1_no_data (dfc : DataFrame) (b : bindings) :
  sales_col b ≠ date_col b → category_col b ≠ sales_col b →
  category_col b ∈ columns dfc → sales_col b ∈ columns dfc → rows dfc = [] →
  tab1 dfc b
  = Ok ([], warning "No valid category/sales data available after cleaning.").
Proof.
  intros _ Hne Hc Hs Hrows. unfold tab1, category_sales, getitem.
  rewrite !decide_True by done. rewrite Hrows.
  change (reset_index (category_col b) (sales_col b) (@nil (value * Qc))
            ≫= (λ cat_df, Ok (cat_df,
                  warning "No valid category/sales data available after cleaning."))
          = Ok ([], warning "No valid category/sales data available after cleaning.")).
  unfold reset_index. by rewrite decide_False.
Qed.

(** Tab 2 with no cleaned row: no table and the warning. *)
Lemma tab2_no_data (dfc : DataFrame) (b : bindings) :
  date_col b ∈ columns dfc → sales_col b ∈ columns dfc → rows dfc = [] →
  tab2 dfc b
  = Ok (None, warning "No valid date/sales data available to plot time series.").
Proof.
  intros Hd Hs Hrows. unfold tab2, time_df.
  assert (Forall (λ c, c ∈ columns dfc) [date_col b; sales_col b]) as Hcols
    by (by repeat constructor).
  rewrite (proj2 (dropna_Ok _ dfc _) (conj Hcols eq_refl)).
  cbn [mbind result_bind]. unfold tab2_of, empty_frame. cbn [rows].
  by rewrite Hrows.
Qed.

(** Tab 3 on a satisfaction column with no value at all: no table and
    the warning. *)
Lemma tab3_no_data (df : DataFrame) (b : bindings) :
  satisfaction_col b ∈ columns df →
  Forall (λ ir, cell ir.2 (satisfaction_col b) = NA) (rows df) →
  tab3 df b = Ok (None, warning "No satisfaction rating data available.").
Proof.
  intros Hsat Hall. unfold tab3, sat_series, getitem.
  rewrite decide_True by done. cbn [fmap result_fmap mbind result_bind].
  assert (Series_dropna ((λ ir, cell ir.2 (satisfaction_col b)) <$> rows df) = [])
    as ->; [|done].
  unfold Series_dropna. induction Hall as [|ir l Hir _ IH]; [done|].
  csimpl. rewrite filter_cons_False; [exact IH|]. intros Hne. by apply Hne.
Qed.

(** Tab 3 on a satisfaction column that has values, none of them a
    number: the guard of line 182 lets the series through, the table of
    line 186 is empty, and [idxmax] raises.  The column is not called
    ["count"], or line 189 would raise before. *)
Lemma tab3_without_numbers (df : DataFrame) (b : bindings) (s : list value) :
  satisfaction_col b ≠ "count" →
  sat_series df b = Ok s → s ≠ [] →
  float64_values (numeric_cell s <$> s) = [] →
  tab3 df b = Raise (ValueError "attempt to get argmax of an empty sequence").
Proof.
  intros Hcount Hs Hne Hnone. unfold tab3, reset_index. rewrite Hs.
  cbn [mbind result_bind]. rewrite bool_decide_eq_false_2 by done.
  destruct (rating_counts_table s) as (-> & _). rewrite Hnone.
  cbn [mbind result_bind]. by rewrite decide_False.
Qed.
End empty_paths.

(** C5: on a sheet whose only rating is the text "bad" the run does not
    reach a no-data state: the satisfaction series is not empty before the
    coercion, the ratings table is empty after it, and [idxmax] ends the run
    with a [ValueError]. *)
Theorem unrated_sheet_raises :
  @app iso.parsers unrated preferred
  = Raise (ValueError "attempt to get argmax of an empty sequence").
Proof. vm_compute. reflexivity. Qed.

(** ** The runs on the example sheets *)

Example juice_bar_dashboard :
  tab1_view <$> @app iso.parsers juice_bar preferred
  = Ok ([(Text "Smoothie", Q2Qc 20); (Text "Juice", Q2Qc 15)],
        top_category_text (Text "Smoothie") (Some (Q2Qc 20))).
Proof. by_evaluation. Qed.

Example juice_bar_daily :
  tab2_view <$> @app iso.parsers juice_bar preferred
  = Ok (Some [(19723%Z, Q2Qc 30); (19724%Z, Q2Qc 5)],
        trend_text 19723 19724 decreased).
Proof. by_evaluation. Qed.

Example juice_bar_ratings :
  tab3_view <$> @app iso.parsers juice_bar preferred
  = Ok (Some [(Qc_of_Z 3, 1%nat); (Qc_of_Z 5, 3%nat)],
        most_common_rating_text (Qc_of_Z 5) (Some 3%nat)).
Proof. vm_compute. reflexivity. Qed.

Example juice_bar_default_bindings : sidebar juice_bar = Some preferred.
Proof. reflexivity. Qed.

Example when_sheet_default_bindings : sidebar when_sheet = Some when_bindings.
Proof. reflexivity. Qed.

Lemma juice_bar_coerces :
  @coerce_columns iso.parsers juice_bar preferred = Ok juice_bar_coerced.
Proof. vm_compute. reflexivity. Qed.

Lemma juice_bar_cleans :
  @df_clean juice_bar_coerced preferred = Ok juice_bar_clean.
Proof. vm_compute. reflexivity. Qed.

Lemma df_clean_juice_bar :
  bound_in juice_bar preferred ∧
  ∃ dfc, @coerce_columns iso.parsers juice_bar preferred
           = Ok (@coerced iso.parsers juice_bar preferred) ∧
         df_clean (@coerced iso.parsers juice_bar preferred) preferred = Ok dfc ∧
         (∀ ir, ir ∈ rows dfc ↔
                ir ∈ rows (@coerced iso.parsers juice_bar preferred) ∧
                cell ir.2 (category_col preferred) ≠ NA ∧
                cell ir.2 (sales_col preferred) ≠ NA ∧
                cell ir.2 (date_col preferred) ≠ NA) ∧
         Forall (λ ir, cell ir.2 (category_col preferred) ≠ NA ∧
                       cell ir.2 (sales_col preferred) ≠ NA ∧
                       cell ir.2 (date_col preferred) ≠ NA) (rows dfc).
Proof.
  assert (bound_in juice_bar preferred) as Hbound.
  { repeat split; by_evaluation. }
  split; [exact Hbound|].
  exact (@df_clean_keeps_complete_rows iso.parsers juice_bar preferred Hbound).
Defined.

Example juice_bar_clean_index : index juice_bar_clean = [0; 1; 2]%nat.
Proof. vm_compute. reflexivity. Qed.



Lemma refilter_juice_bar :
  @coerce_columns iso.parsers juice_bar preferred = Ok juice_bar_coerced ∧
  df_clean juice_bar_coerced preferred = Ok juice_bar_clean ∧
  time_df juice_bar_clean preferred = Ok juice_bar_clean ∧
  tab2 juice_bar_clean preferred = tab2_without_refilter juice_bar_clean preferred.
Proof.
  split; [vm_compute; reflexivity|]. split; [vm_compute; reflexivity|].
  apply (@refilter_is_noop iso.parsers
           juice_bar preferred juice_bar_coerced juice_bar_clean);
    vm_compute; reflexivity.
Defined.

Lemma cleaning_juice_bar :
  @coerce_columns iso.parsers juice_bar preferred = Ok juice_bar_coerced ∧
  df_clean juice_bar_coerced preferred = Ok juice_bar_clean ∧
  columns juice_bar_clean = columns juice_bar ∧
  ∃ kept, kept `sublist_of` rows juice_bar ∧
          Forall2 (same_outside preferred) (rows juice_bar_clean) kept.
Proof.
  split; [vm_compute; reflexivity|]. split; [vm_compute; reflexivity|].
  apply (@cleaning_touches_two_columns iso.parsers
           juice_bar preferred juice_bar_coerced juice_bar_clean);
    vm_compute; reflexivity.
Defined.

Lemma ratings_juice_bar :
  bound_in juice_bar preferred ∧
  satisfaction_col preferred ≠ sales_col preferred ∧
  satisfaction_col preferred ≠ date_col preferred ∧
  @rating_claim iso.parsers juice_bar preferred.
Proof.
  assert (bound_in juice_bar preferred) as Hbound.
  { repeat split; by_evaluation. }
  split; [exact Hbound|]. split; [discriminate|]. split; [discriminate|].
  apply (@rating_counts_from_raw_column iso.parsers juice_bar preferred Hbound);
    discriminate.
Defined.

(** ** Where the ratings table is not the distribution of the raw column *)

(** With the satisfaction role on the date column the run counts the
    dates that line 74 parsed, as nanoseconds: one rating on a sheet whose
    raw column holds no number at all. *)
Lemma ratings_of_a_date_column :
  ¬ @rating_claim iso.parsers when_sheet when_bindings.
Proof.
  intros (table & ratings & Hrun & Hdist & _).
  assert (@run_rating_counts iso.parsers when_sheet when_bindings
          = @ratingDistribution iso.parsers when_sheet (satisfaction_col when_bindings))
    as E by congruence.
  vm_compute in E. discriminate E.
Qed.

Example when_sheet_ratings :
  @run_rating_counts iso.parsers when_sheet when_bindings
  = Ok [(Qc_of_Z 1704067200000000000, 1%nat)] ∧
  @ratingDistribution iso.parsers when_sheet "When" = Ok [] ∧
  @numeric_values iso.parsers when_sheet "When" = Ok [].
Proof. repeat split; vm_compute; reflexivity. Qed.

(** With the satisfaction role on the sales column, line 71 has already
    turned a blank date of that column into the integer behind [NaT], and
    the run counts it as a rating. *)
Lemma ratings_of_the_sales_column :
  ¬ @rating_claim iso.parsers paid_sheet paid_bindings.
Proof.
  intros (table & ratings & Hrun & Hdist & _).
  assert (@run_rating_counts iso.parsers paid_sheet paid_bindings
          = @ratingDistribution iso.parsers paid_sheet (satisfaction_col paid_bindings))
    as E by congruence.
  vm_compute in E. discriminate E.
Qed.

(** ** Where the totals do not add up *)

Lemma price_sheet_cleans :
  @coerce_columns iso.parsers price_sheet preferred
  = Ok (@coerced iso.parsers price_sheet preferred) ∧
  df_clean (@coerced iso.parsers price_sheet preferred) preferred = Ok price_clean.
Proof. split; vm_compute; reflexivity. Qed.



Example price_sheet_category_sales :
  category_sales price_clean preferred
  = Ok [(Text "Juice", Q2Qc (5179139571476071 # 2251799813685248));
        (Text "Smoothie", Q2Qc (3602879701896397 # 18014398509481984))] ∧
  total_sales preferred (rows price_clean)
  = Q2Qc (90071992547409927 # 36028797018963968) ∧
  float64_total [Q2Qc (5179139571476071 # 2251799813685248);
                 Q2Qc (3602879701896397 # 18014398509481984)]
  = Q2Qc (5629499534213121 # 2251799813685248) ∧
  float64_total (sale_of preferred <$> rows price_clean) = Q2Qc (5 # 2).
Proof. repeat split; by_evaluation. Qed.

(** The error that one addition of a group loses goes into the next: a
    group of [10 ^ 16], 1 and 1 adds up without loss, where additions from
    the left lose both units. *)
Example group_sum_compensates :
  group_sum [Num (Qc_of_Z (10 ^ 16)); Num (Qc_of_Z 1); Num (Qc_of_Z 1)]
  = Qc_of_Z (10 ^ 16 + 2) ∧
  float64_total [Qc_of_Z (10 ^ 16); Qc_of_Z 1; Qc_of_Z 1] = Qc_of_Z (10 ^ 16).
Proof. split; by_evaluation. Qed.

(** * Further properties of the script *)

(** ** The sidebar *)

(** X1: [default_index] is a valid position of a non-empty list: the first
    position of the preferred name when the list has it, and 0 when it
    does not. *)
Theorem default_index_first_position (col_name : string) (cols : list string) :
  cols ≠ [] →
  (default_index col_name cols < length cols)%nat ∧
  (col_name ∈ cols →
     cols !! default_index col_name cols = Some col_name ∧
     ∀ j, (j < default_index col_name cols)%nat → cols !! j ≠ Some col_name) ∧
  (col_name ∉ cols → default_index col_name cols = 0%nat).
Proof.
  intros Hne. unfold default_index, list_index.
  destruct (decide (col_name ∈ cols)) as [Hin|Hnin].
  - destruct (list_find (λ c, c = col_name) cols) as [[i c]|] eqn:E.
    + apply list_find_Some in E as (Hi & -> & Hfirst). simpl.
      split; [by eapply lookup_lt_Some|]. split; [|done].
      intros _. split; [done|]. intros j Hj Hcj. by eapply (Hfirst j).
    + apply list_find_None in E. rewrite Forall_forall in E.
      by destruct (E col_name Hin).
  - split; [destruct cols; [done|simpl; lia]|]. by split.
Qed.

Lemma default_index_of_sales :
  ["Type"; "Sales"; "Sales"] ≠ [] ∧
  (default_index "Sales" ["Type"; "Sales"; "Sales"] < length ["Type"; "Sales"; "Sales"])%nat ∧
  ("Sales" ∈ ["Type"; "Sales"; "Sales"] →
     ["Type"; "Sales"; "Sales"] !! default_index "Sales" ["Type"; "Sales"; "Sales"]
       = Some "Sales" ∧
     ∀ j, (j < default_index "Sales" ["Type"; "Sales"; "Sales"])%nat →
          ["Type"; "Sales"; "Sales"] !! j ≠ Some "Sales") ∧
  ("Sales" ∉ ["Type"; "Sales"; "Sales"] →
     default_index "Sales" ["Type"; "Sales"; "Sales"] = 0%nat).
Proof.
  split; [discriminate|].
  apply (default_index_first_position "Sales" ["Type"; "Sales"; "Sales"]).
  discriminate.
Defined.

Lemma defaultBinding_default_column (preferredName c : string) (cols : list string) :
  defaultBinding preferredName (c :: cols)
  = Some (default_column (c :: cols) c preferredName).
Proof.
  unfold defaultBinding, selectbox, default_column, default_index.
  destruct (decide (preferredName ∈ c :: cols)) as [Hin|Hnin]; [|done].
  by destruct (list_index_first _ _ Hin) as (i & -> & Hi).
Qed.

Lemma default_column_elem_of (preferredName c : string) (cols : list string) :
  default_column (c :: cols) c preferredName ∈ c :: cols.
Proof. unfold default_column. case_decide; [done|left]. Qed.

(** X2: on a sheet with at least one column the sidebar binds each role to
    its preferred column name when the sheet has a column of that name and
    to the first column of the sheet otherwise; all four bindings are
    columns of the sheet. *)
Theorem sidebar_default_bindings (df : DataFrame) (c : string) (cols : list string) :
  columns df = c :: cols →
  sidebar df
  = Some {| category_col := default_column (columns df) c "Category";
            sales_col := default_column (columns df) c "Sales";
            date_col := default_column (columns df) c "Date Ordered";
            satisfaction_col :=
              default_column (columns df) c "Service Satisfaction Rating" |} ∧
  ∀ b, sidebar df = Some b → bound_in df b.
Proof.
  intros Hcols.
  assert (sidebar df
    = Some {| category_col := default_column (columns df) c "Category";
              sales_col := default_column (columns df) c "Sales";
              date_col := default_column (columns df) c "Date Ordered";
              satisfaction_col :=
                default_column (columns df) c "Service Satisfaction Rating" |})
    as Hside.
  { unfold sidebar. rewrite Hcols, !defaultBinding_default_column. reflexivity. }
  split; [exact Hside|]. intros b Hb. rewrite Hside in Hb. injection Hb as <-.
  unfold bound_in. cbn [category_col sales_col date_col satisfaction_col].
  rewrite Hcols. repeat split; apply default_column_elem_of.
Qed.

Lemma sidebar_when_sheet :
  columns when_sheet = "When" :: ["Sales"] ∧
  sidebar when_sheet
  = Some {| category_col := default_column (columns when_sheet) "When" "Category";
            sales_col := default_column (columns when_sheet) "When" "Sales";
            date_col := default_column (columns when_sheet) "When" "Date Ordered";
            satisfaction_col :=
              default_column (columns when_sheet) "When" "Service Satisfaction Rating" |} ∧
  ∀ b, sidebar when_sheet = Some b → bound_in when_sheet b.
Proof.
  split; [reflexivity|].
  apply (sidebar_default_bindings when_sheet "When" ["Sales"]). reflexivity.
Defined.

(** ** Largest entries *)

Section extrema_facts.
Context {K V : Type} (lt : relation V) `{!RelDecision lt}.

(** An entry that nothing after it exceeds is the one [idxmax] finds. *)
Lemma argmax_from_keeps (best : K * V) (s : list (K * V)) :
  Forall (λ x, ¬ lt best.2 x.2) s → argmax_from lt best s = best.
Proof.
  induction 1 as [|x s Hx _ IH]; [done|]. simpl. by rewrite decide_False.
Qed.

Context `{!StrictOrder lt}.
Hypothesis cotransitive : ∀ a b c, lt a b → lt a c ∨ lt c b.

Lemma argmax_from_max (best : K * V) (s : list (K * V)) :
  Forall (λ x, ¬ lt (argmax_from lt best s).2 x.2) (best :: s).
Proof.
  revert best. induction s as [|x s IH]; intros best; simpl.
  - constructor; [apply irreflexivity, _|constructor].
  - specialize (IH (if decide (lt best.2 x.2) then x else best)).
    set (r := argmax_from lt _ s) in *.
    apply Forall_cons in IH as [Hbest Hs].
    destruct (decide (lt best.2 x.2)) as [Hlt|Hnlt].
    + repeat constructor; [|done|done].
      intros Hr. apply Hbest. by etrans.
    + repeat constructor; [done| |done].
      intros Hr. by destruct (cotransitive _ _ best.2 Hr).
Qed.

(** The entry [idxmax] finds is the first of the largest: every entry
    before it is strictly smaller. *)
Lemma argmax_from_split (best : K * V) (s : list (K * V)) :
  ∃ l1 l2, best :: s = l1 ++ argmax_from lt best s :: l2 ∧
           Forall (λ x, lt x.2 (argmax_from lt best s).2) l1.
Proof.
  revert best. induction s as [|x s IH]; intros best; simpl.
  - by exists [], [].
  - destruct (decide (lt best.2 x.2)) as [Hlt|Hnlt].
    + destruct (IH x) as (l1 & l2 & Hsplit & Hl1).
      exists (best :: l1), l2. split; [by rewrite Hsplit|].
      constructor; [|done].
      destruct (cotransitive _ _ (argmax_from lt x s).2 Hlt) as [?|Hr]; [done|].
      pose proof (argmax_from_max x s) as [Hx _]%Forall_cons. by destruct Hx.
    + destruct (IH best) as (l1 & l2 & Hsplit & Hl1).
      destruct l1 as [|b l1]; simpl in Hsplit; injection Hsplit as Hb Hs.
      * exists [], (x :: s). split; [simpl; by rewrite <- Hb|constructor].
      * apply Forall_cons in Hl1 as [Hlt Hl1]. subst b.
        exists (best :: x :: l1), l2. split; [simpl; do 2 f_equal; exact Hs|].
        repeat constructor; [done| |done].
        by destruct (cotransitive _ _ x.2 Hlt).
Qed.
End extrema_facts.

Lemma Qclt_cotransitive (a b c : Qc) : a < b → a < c ∨ c < b.
Proof.
  intros Hab. destruct (Qclt_le_dec a c) as [?|Hca]; [by left|right].
  by eapply Qcle_lt_trans.
Qed.

Lemma lt_cotransitive (a b c : nat) : (a < b → a < c ∨ c < b)%nat.
Proof. lia. Qed.

(** ** Tab 1 *)

(** What the two summaries hold when they are produced: the keys of the
    rows, each once, in the order of the sort. *)
Lemma category_sales_Ok (dfc : DataFrame) (b : bindings) (summary : list (value * Qc)) :
  category_sales dfc b = Ok summary →
  StronglySorted (by_value_descending Qcle) summary ∧
  NoDup summary.*1 ∧
  ∀ k, k ∈ summary.*1 ↔ ∃ ir, ir ∈ rows dfc ∧ category_of b ir = Some k.
Proof.
  unfold category_sales.
  intros (cats & [_ ->]%getitem_Ok & (sales & [_ ->]%getitem_Ok &
          (totals & Hsum & [= <-])%bind_Ok)%bind_Ok)%bind_Ok.
  rewrite <- list_fmap_compose in Hsum.
  destruct (groupby_sum_Ok _ _ _ _ _ Hsum) as (Hnd & Hkeys & _).
  assert (sort_values_descending totals ≡ₚ totals) as Hperm
    by apply merge_sort_Permutation.
  split; [apply StronglySorted_merge_sort; apply _|].
  split; [by rewrite Hperm|]. intros k. by rewrite Hperm, Hkeys.
Qed.

Lemma daily_sales_Ok (dfc : DataFrame) (b : bindings) (summary : list (Z * Qc)) :
  daily_sales dfc b = Ok summary →
  Forall (λ ir, cell ir.2 (date_col b) = NA ∨
                ∃ ns, cell ir.2 (date_col b) = Timestamp ns) (rows dfc) ∧
  StronglySorted Z.le summary.*1 ∧
  NoDup summary.*1 ∧
  ∀ d, d ∈ summary.*1 ↔ ∃ ir, ir ∈ rows dfc ∧ date_of b ir = Some d.
Proof.
  unfold daily_sales.
  intros (dates & [_ ->]%getitem_Ok & (days & [Hdates ->]%dt_date_Ok &
          (sales & [_ ->]%getitem_Ok &
          (totals & Hsum & [= <-])%bind_Ok)%bind_Ok)%bind_Ok)%bind_Ok.
  rewrite <- list_fmap_compose in Hsum.
  destruct (groupby_sum_Ok _ _ _ _ _ Hsum) as (Hnd & Hkeys & _).
  assert (sort_index Z.le totals ≡ₚ totals) as Hperm by apply merge_sort_Permutation.
  split; [by rewrite Forall_fmap in Hdates|]. split.
  { apply (StronglySorted_fmap fst (by_label Z.le) Z.le); [done|].
    apply StronglySorted_merge_sort; apply _. }
  split; [by rewrite Hperm|]. intros d. by rewrite Hperm, Hkeys.
Qed.

(** X3: when tab 1 is drawn, it shows the warning and an empty table
    exactly when no row is left after cleaning; otherwise the category it
    names is the first row of the table and a category of the cleaned
    rows, the amount it shows is the total of that row, and no other row of
    the table has a larger total. *)
Theorem tab1_top_category (dfc : DataFrame) (b : bindings)
    (table : list (value * Qc)) (msg : message) :
  cleaned dfc b →
  tab1 dfc b = Ok (table, msg) →
  (rows dfc = [] ∧ table = [] ∧
   msg = warning "No valid category/sales data available after cleaning.") ∨
  (rows dfc ≠ [] ∧
   ∃ k t rest,
     table = (k, t) :: rest ∧ msg = top_category_text k (Some t) ∧
     Forall (λ e, e.2 ≤ t) rest ∧
     ∃ ir, ir ∈ rows dfc ∧ cell ir.2 (category_col b) = k).
Proof.
  intros Hclean. unfold tab1, reset_index.
  intros (summary & Hsum & Hrest)%bind_Ok.
  destruct (decide (category_col b = sales_col b)); [done|].
  cbn [mbind result_bind] in Hrest.
  destruct (category_sales_Ok _ _ _ Hsum) as (Hsorted & _ & Hkeys).
  destruct summary as [|[k t] rest].
  - injection Hrest as <- <-. left. split; [|done].
    destruct (rows dfc) as [|ir l] eqn:Hrows; [done|].
    assert (ir ∈ rows dfc) as Hir by (rewrite Hrows; left).
    pose proof (cleaned_category dfc b ir Hclean Hir) as Hcat.
    assert (cell ir.2 (category_col b) ∈ @nil value) as []%not_elem_of_nil.
    apply (Hkeys (cell ir.2 (category_col b))). exists ir. split; [left|].
    by apply category_of_in_category.
  - rewrite bool_decide_eq_false_2 in Hrest by done.
    apply StronglySorted_cons in Hsorted as [Hmax _].
    unfold idxmax, Series_max in Hrest.
    rewrite (argmax_from_keeps Qclt (k, t) rest) in Hrest.
    2: { eapply Forall_impl; [exact Hmax|]. intros e He. by apply Qcle_not_lt. }
    injection Hrest as <- <-. right.
    destruct (proj1 (Hkeys k)) as (ir & Hir & Hk); [left|].
    split; [by intros Hnil; rewrite Hnil in Hir; apply not_elem_of_nil in Hir|].
    exists k, t, rest. repeat split; [done|]. exists ir. split; [done|].
    by apply category_of_in_category; [apply (cleaned_category dfc)|].
Qed.

Lemma top_category_juice_bar :
  cleaned juice_bar_clean preferred ∧
  tab1 juice_bar_clean preferred
  = Ok ([(Text "Smoothie", Q2Qc 20); (Text "Juice", Q2Qc 15)],
        top_category_text (Text "Smoothie") (Some (Q2Qc 20))) ∧
  ((rows juice_bar_clean = [] ∧
    [(Text "Smoothie", Q2Qc 20); (Text "Juice", Q2Qc 15)] = [] ∧
    top_category_text (Text "Smoothie") (Some (Q2Qc 20))
    = warning "No valid category/sales data available after cleaning.") ∨
   (rows juice_bar_clean ≠ [] ∧
    ∃ k t rest,
      [(Text "Smoothie", Q2Qc 20); (Text "Juice", Q2Qc 15)] = (k, t) :: rest ∧
      top_category_text (Text "Smoothie") (Some (Q2Qc 20))
      = top_category_text k (Some t) ∧
      Forall (λ e, e.2 ≤ t) rest ∧
      ∃ ir, ir ∈ rows juice_bar_clean ∧ cell ir.2 (category_col preferred) = k)).
Proof.
  assert (cleaned juice_bar_clean preferred) as Hclean by (unfold cleaned; by_evaluation).
  assert (tab1 juice_bar_clean preferred
          = Ok ([(Text "Smoothie", Q2Qc 20); (Text "Juice", Q2Qc 15)],
                top_category_text (Text "Smoothie") (Some (Q2Qc 20)))) as Htab
    by by_evaluation.
  split; [exact Hclean|]. split; [exact Htab|].
  exact (tab1_top_category juice_bar_clean preferred _ _ Hclean Htab).
Defined.

(** ** Tab 2 *)

Lemma sorted_between (l : list Z) (a z : Z) :
  StronglySorted Z.le l → head l = Some a → last l = Some z →
  ∀ d, d ∈ l → (a ≤ d ≤ z)%Z.
Proof.
  intros Hsorted Hhead Hlast d Hd. split.
  - destruct l as [|a' l]; simplify_eq/=.
    apply StronglySorted_cons in Hsorted as [Ha _].
    apply elem_of_cons in Hd as [->|Hd]; [done|].
    rewrite Forall_forall in Ha. by apply Ha.
  - apply last_Some in Hlast as [l' ->].
    apply elem_of_app in Hd as [Hd|Hd%list_elem_of_singleton]; [|by subst].
    eapply (StronglySorted_app_1_elem_of Z.le); [done..|left].
Qed.

(** The text under the daily chart, read back: a trend is reported only
    for a series of more than one entry, between its first and last
    entries. *)
Lemma daily_interpretation_Ok (daily_sales : list (Z * Qc)) (msg : message) :
  daily_interpretation daily_sales = Ok msg →
  ((length daily_sales ≤ 1)%nat ∧ msg = single_date_text) ∨
  ((1 < length daily_sales)%nat ∧
   ∃ first_entry last_entry,
     head daily_sales = Some first_entry ∧ last daily_sales = Some last_entry ∧
     msg = trend_text first_entry.1 last_entry.1 (trend first_entry.2 last_entry.2)).
Proof.
  unfold daily_interpretation.
  destruct (decide (1 < length daily_sales)%nat) as [Hlen|Hlen].
  - intros Hmsg. right. split; [done|].
    destruct daily_sales as [|e rest]; [simpl in Hlen; lia|].
    destruct (last (e :: rest)) as [l|] eqn:Hlast.
    2: { apply last_None in Hlast. done. }
    assert (iloc (e :: rest) 0 = Ok e) as He by reflexivity.
    rewrite He in Hmsg. cbn [mbind result_bind] in Hmsg.
    rewrite (iloc_last _ _ Hlast) in Hmsg. cbn [mbind result_bind] in Hmsg.
    injection Hmsg as <-. by exists e, l.
  - intros [= <-]. left. split; [lia|done].
Qed.

Lemma daily_interpretation_returns (daily_sales : list (Z * Qc)) :
  is_Ok (daily_interpretation daily_sales).
Proof.
  unfold daily_interpretation.
  destruct (decide (1 < length daily_sales)%nat) as [Hlen|Hlen]; [|by eexists].
  destruct daily_sales as [|e rest]; [simpl in Hlen; lia|].
  destruct (last (e :: rest)) as [l|] eqn:Hlast.
  2: { apply last_None in Hlast. done. }
  assert (iloc (e :: rest) 0 = Ok e) as -> by reflexivity.
  cbn [mbind result_bind]. rewrite (iloc_last _ _ Hlast). by eexists.
Qed.

(** On a cleaned frame the filter of line 124 keeps every row. *)
Lemma time_df_cleaned (dfc tdf : DataFrame) (b : bindings) :
  cleaned dfc b → time_df dfc b = Ok tdf → tdf = dfc.
Proof.
  intros Hclean [_ ->]%dropna_Ok. destruct dfc as [cols rws].
  cbn [columns rows] in *. f_equal. apply filter_Forall.
  eapply Forall_impl; [exact Hclean|]. intros ir Hir.
  apply complete_three in Hir as (_ & Hs & Hd). unfold complete.
  by repeat constructor.
Qed.

(** What tab 2 shows when it is drawn on a cleaned frame with rows. *)
Lemma tab2_Ok (dfc : DataFrame) (b : bindings)
    (view : option (list (Z * Qc))) (msg : message) :
  cleaned dfc b → rows dfc ≠ [] → tab2 dfc b = Ok (view, msg) →
  ∃ summary,
    view = Some summary ∧ summary ≠ [] ∧ daily_interpretation summary = Ok msg ∧
    StronglySorted Z.le summary.*1 ∧ NoDup summary.*1 ∧
    (∀ ir, ir ∈ rows dfc →
           ∃ ns, cell ir.2 (date_col b) = Timestamp ns ∧
                 (ns `div` 86400000000000)%Z ∈ summary.*1) ∧
    (∀ d, d ∈ summary.*1 →
          ∃ ir ns, ir ∈ rows dfc ∧ cell ir.2 (date_col b) = Timestamp ns ∧
                   (ns `div` 86400000000000)%Z = d).
Proof.
  intros Hclean Hrows. unfold tab2.
  intros (tdf & Htdf & Hrest)%bind_Ok.
  apply (time_df_cleaned _ _ _ Hclean) in Htdf as ->.
  unfold tab2_of, empty_frame, reset_index in Hrest.
  rewrite bool_decide_eq_false_2 in Hrest by done.
  apply bind_Ok in Hrest as (summary & Hsum & Hrest).
  destruct (decide (date_col b = sales_col b)); [done|].
  cbn [mbind result_bind] in Hrest.
  apply bind_Ok in Hrest as (text & Htext & [= <- <-]).
  destruct (daily_sales_Ok _ _ _ Hsum) as (Hdates & Hsorted & Hnd & Hkeys).
  assert (∀ ir, ir ∈ rows dfc →
            ∃ ns, cell ir.2 (date_col b) = Timestamp ns ∧
                  (ns `div` 86400000000000)%Z ∈ summary.*1) as Hrow.
  { intros ir Hir. unfold cleaned in Hclean.
    rewrite Forall_forall in Hdates, Hclean.
    pose proof (proj1 (complete_three b ir) (Hclean ir Hir)) as (_ & _ & Hd).
    destruct (Hdates ir Hir) as [?|[ns Hns]]; [done|]. exists ns. split; [done|].
    apply Hkeys. exists ir. split; [done|]. unfold date_of.
    by rewrite Hns, day_of_calendar_day. }
  exists summary. split; [done|]. split.
  { destruct (rows dfc) as [|ir l] eqn:E; [done|].
    destruct (Hrow ir) as (ns & _ & Hin); [left|].
    intros ->. by apply not_elem_of_nil in Hin. }
  split; [done|]. split; [done|]. split; [done|]. split; [done|].
  intros d (ir & Hir & Hday)%Hkeys. destruct (Hrow ir Hir) as (ns & Hns & _).
  exists ir, ns. split; [done|]. split; [done|].
  unfold date_of in Hday. rewrite Hns, day_of_calendar_day in Hday.
  by injection Hday.
Qed.

(** X4: when tab 2 is drawn on cleaned rows, it shows the warning and no
    table exactly when there is no row; otherwise it shows a daily table
    with at least one day, and the single-date text appears exactly when
    all the rows fall on one calendar date. *)
Theorem tab2_single_date (dfc : DataFrame) (b : bindings)
    (view : option (list (Z * Qc))) (msg : message) :
  cleaned dfc b →
  tab2 dfc b = Ok (view, msg) →
  (rows dfc = [] ∧ view = None ∧
   msg = warning "No valid date/sales data available to plot time series.") ∨
  (rows dfc ≠ [] ∧
   ∃ summary, view = Some summary ∧ summary ≠ [] ∧
     (msg = single_date_text ↔
      ∀ ir ir' ns ns', ir ∈ rows dfc → ir' ∈ rows dfc →
        cell ir.2 (date_col b) = Timestamp ns →
        cell ir'.2 (date_col b) = Timestamp ns' →
        (ns `div` 86400000000000 = ns' `div` 86400000000000)%Z)).
Proof.
  intros Hclean Htab. destruct (decide (rows dfc = [])) as [Hrows|Hrows].
  { left. split; [done|]. unfold tab2 in Htab.
    apply bind_Ok in Htab as (tdf & Htdf & Hrest).
    apply (time_df_cleaned _ _ _ Hclean) in Htdf as ->.
    unfold tab2_of, empty_frame in Hrest.
    rewrite bool_decide_eq_true_2 in Hrest by done. by injection Hrest as <- <-. }
  right. split; [done|].
  destruct (tab2_Ok _ _ _ _ Hclean Hrows Htab)
    as (summary & -> & Hne & Hmsg & _ & Hnd & Hrow & Hkey).
  exists summary. split; [done|]. split; [done|].
  apply daily_interpretation_Ok in Hmsg
    as [[Hlen ->]|(Hlen & e1 & en & _ & _ & ->)]; split; try done.
  - intros _ ir ir' ns ns' Hir Hir' Hns Hns'.
    destruct (Hrow ir Hir) as (ns1 & Hns1 & Hin).
    destruct (Hrow ir' Hir') as (ns2 & Hns2 & Hin').
    rewrite Hns in Hns1. rewrite Hns' in Hns2.
    injection Hns1 as <-. injection Hns2 as <-.
    destruct summary as [|e [|e' summary]]; [done| |simpl in Hlen; lia].
    apply list_elem_of_singleton in Hin, Hin'. congruence.
  - intros Hsame. exfalso.
    destruct summary as [|[d1 t1] [|[d2 t2] summary]]; [simpl in Hlen; lia..|].
    destruct (Hkey d1) as (ir1 & ns1 & Hir1 & Hns1 & Hd1); [left|].
    destruct (Hkey d2) as (ir2 & ns2 & Hir2 & Hns2 & Hd2); [right; left|].
    pose proof (Hsame ir1 ir2 ns1 ns2 Hir1 Hir2 Hns1 Hns2) as Heq.
    csimpl in Hnd. apply NoDup_cons in Hnd as [Hnin _]. apply Hnin.
    rewrite <- Hd1, <- Hd2, Heq. left.
Qed.

(** X5: when tab 2 reports a trend, the two dates of the text are the
    earliest and the latest calendar date of the cleaned rows, the first
    strictly before the last, every row falls between them, and the trend
    compares the totals that the table shows for these two dates. *)
Theorem tab2_trend_spans_days (dfc : DataFrame) (b : bindings)
    (summary : list (Z * Qc)) (first_date last_date : Z) (t : trend_label) :
  cleaned dfc b →
  tab2 dfc b = Ok (Some summary, trend_text first_date last_date t) →
  (first_date < last_date)%Z ∧
  (∃ ir ns, ir ∈ rows dfc ∧ cell ir.2 (date_col b) = Timestamp ns ∧
            (ns `div` 86400000000000)%Z = first_date) ∧
  (∃ ir ns, ir ∈ rows dfc ∧ cell ir.2 (date_col b) = Timestamp ns ∧
            (ns `div` 86400000000000)%Z = last_date) ∧
  (∀ ir, ir ∈ rows dfc →
         ∃ ns, cell ir.2 (date_col b) = Timestamp ns ∧
               (first_date ≤ ns `div` 86400000000000 ≤ last_date)%Z) ∧
  ∃ first_val last_val,
    head summary = Some (first_date, first_val) ∧
    last summary = Some (last_date, last_val) ∧
    t = trend first_val last_val.
Proof.
  intros Hclean Htab.
  assert (rows dfc ≠ []) as Hrows.
  { intros Hnil. unfold tab2 in Htab.
    apply bind_Ok in Htab as (tdf & Htdf & Hrest).
    apply (time_df_cleaned _ _ _ Hclean) in Htdf as ->.
    unfold tab2_of, empty_frame in Hrest.
    by rewrite bool_decide_eq_true_2 in Hrest. }
  destruct (tab2_Ok _ _ _ _ Hclean Hrows Htab)
    as (summary' & [= <-] & Hne & Hmsg & Hsorted & Hnd & Hrow & Hkey).
  apply daily_interpretation_Ok in Hmsg
    as [[_ [=]]|(Hlen & [d1 t1] & [dn tn] & Hhead & Hlast & [= -> -> ->])].
  simpl in *.
  assert (head summary.*1 = Some d1) as Hhead1.
  { destruct summary; by simplify_eq/=. }
  assert (last summary.*1 = Some dn) as Hlast1 by by rewrite fmap_last, Hlast.
  pose proof (sorted_between _ _ _ Hsorted Hhead1 Hlast1) as Hbetween.
  assert (d1 ∈ summary.*1) as Hin1 by by apply head_Some_elem_of.
  assert (dn ∈ summary.*1) as Hinn by by apply last_Some_elem_of.
  split; [|split; [by apply Hkey|split; [by apply Hkey|split]]].
  - assert (d1 ≤ dn)%Z by (by destruct (Hbetween dn Hinn)).
    assert (d1 ≠ dn); [|lia]. intros Heq. clear Hbetween Hhead1 Hlast1 Hin1 Hinn.
    destruct summary as [|e [|e' rest]]; [simpl in Hlen; lia..|].
    simpl in Hhead. injection Hhead as ->. csimpl in Hnd.
    apply NoDup_cons in Hnd as [Hnin _]. apply Hnin. simpl. rewrite Heq.
    rewrite last_cons_cons in Hlast.
    change (dn ∈ (e' :: rest).*1). apply last_Some_elem_of.
    by rewrite fmap_last, Hlast.
  - intros ir Hir. destruct (Hrow ir Hir) as (ns & Hns & Hin).
    exists ns. split; [done|]. by apply Hbetween.
  - by exists t1, tn.
Qed.

Lemma single_date_juice_bar :
  cleaned juice_bar_clean preferred ∧
  tab2 juice_bar_clean preferred
  = Ok (Some [(19723%Z, Q2Qc 30); (19724%Z, Q2Qc 5)],
        trend_text 19723 19724 decreased) ∧
  ((rows juice_bar_clean = [] ∧
    Some [(19723%Z, Q2Qc 30); (19724%Z, Q2Qc 5)] = None ∧
    trend_text 19723 19724 decreased
    = warning "No valid date/sales data available to plot time series.") ∨
   (rows juice_bar_clean ≠ [] ∧
    ∃ summary, Some [(19723%Z, Q2Qc 30); (19724%Z, Q2Qc 5)] = Some summary ∧
      summary ≠ [] ∧
      (trend_text 19723 19724 decreased = single_date_text ↔
       ∀ ir ir' ns ns', ir ∈ rows juice_bar_clean → ir' ∈ rows juice_bar_clean →
         cell ir.2 (date_col preferred) = Timestamp ns →
         cell ir'.2 (date_col preferred) = Timestamp ns' →
         (ns `div` 86400000000000 = ns' `div` 86400000000000)%Z))).
Proof.
  assert (cleaned juice_bar_clean preferred) as Hclean by (unfold cleaned; by_evaluation).
  assert (tab2 juice_bar_clean preferred
          = Ok (Some [(19723%Z, Q2Qc 30); (19724%Z, Q2Qc 5)],
                trend_text 19723 19724 decreased)) as Htab by by_evaluation.
  split; [exact Hclean|]. split; [exact Htab|].
  exact (tab2_single_date juice_bar_clean preferred _ _ Hclean Htab).
Defined.

Lemma trend_dates_juice_bar :
  cleaned juice_bar_clean preferred ∧
  tab2 juice_bar_clean preferred
  = Ok (Some [(19723%Z, Q2Qc 30); (19724%Z, Q2Qc 5)],
        trend_text 19723 19724 decreased) ∧
  (19723 < 19724)%Z ∧
  (∃ ir ns, ir ∈ rows juice_bar_clean ∧
            cell ir.2 (date_col preferred) = Timestamp ns ∧
            (ns `div` 86400000000000)%Z = 19723%Z) ∧
  (∃ ir ns, ir ∈ rows juice_bar_clean ∧
            cell ir.2 (date_col preferred) = Timestamp ns ∧
            (ns `div` 86400000000000)%Z = 19724%Z) ∧
  (∀ ir, ir ∈ rows juice_bar_clean →
         ∃ ns, cell ir.2 (date_col preferred) = Timestamp ns ∧
               (19723 ≤ ns `div` 86400000000000 ≤ 19724)%Z) ∧
  ∃ first_val last_val,
    head [(19723%Z, Q2Qc 30); (19724%Z, Q2Qc 5)] = Some (19723%Z, first_val) ∧
    last [(19723%Z, Q2Qc 30); (19724%Z, Q2Qc 5)] = Some (19724%Z, last_val) ∧
    decreased = trend first_val last_val.
Proof.
  assert (cleaned juice_bar_clean preferred) as Hclean by (unfold cleaned; by_evaluation).
  assert (tab2 juice_bar_clean preferred
          = Ok (Some [(19723%Z, Q2Qc 30); (19724%Z, Q2Qc 5)],
                trend_text 19723 19724 decreased)) as Htab by by_evaluation.
  split; [exact Hclean|]. split; [exact Htab|].
  exact (tab2_trend_spans_days juice_bar_clean preferred _ _ _ _ Hclean Htab).
Defined.

(** ** Tab 3 *)

Section tab3_facts.
Context `{Parsers}.

Lemma sat_series_present (df : DataFrame) (b : bindings) :
  satisfaction_col b ∈ columns df → sat_series df b = Ok (present_ratings df b).
Proof.
  intros Hsat. unfold sat_series, getitem. by rewrite decide_True.
Qed.

(** The ratings table as a list of its entries: one per distinct numeric
    rating, with the number of its occurrences. *)
Lemma rating_counts_entries (s : list value) :
  let ratings := float64_values (numeric_cell s <$> s) in
  ∃ table, rating_counts s = Ok table ∧
           StronglySorted Qclt table.*1 ∧
           (∀ r c, (r, c) ∈ table ↔ r ∈ ratings ∧ c = occurrences r ratings) ∧
           (table = [] ↔ ratings = []).
Proof.
  intros ratings. destruct (rating_counts_table s) as (Htable & Hsorted & _).
  fold ratings in Htable, Hsorted. eexists. split; [exact Htable|].
  split; [exact Hsorted|].
  assert (∀ r c, (r, c) ∈ merge_sort (by_label Qcle)
            ((λ r, (r, length (filter (λ x, x = r) ratings))) <$> remove_dups ratings)
          ↔ r ∈ ratings ∧ c = occurrences r ratings) as Hentries.
  { intros r c. rewrite merge_sort_Permutation, list_elem_of_fmap. split.
    - intros (r' & Heq & Hr). injection Heq as -> ->.
      rewrite elem_of_remove_dups in Hr. split; [done|reflexivity].
    - intros [Hr ->]. exists r. split; [reflexivity|]. by apply elem_of_remove_dups. }
  split; [exact Hentries|]. split.
  - intros Hnil. destruct ratings as [|r ratings'] eqn:E; [done|].
    assert ((r, occurrences r (r :: ratings')) ∈ @nil (Qc * nat))
      as []%not_elem_of_nil.
    rewrite <- Hnil. apply Hentries. split; [left|done].
  - intros ->. reflexivity.
Qed.

(** X6: on a frame that has the satisfaction column, tab 3 shows the
    warning when the column has no value at all; it ends in an exception
    when the column has values but none of them is numeric; and whenever
    it is drawn with a table, the table lists each numeric rating of the
    column once with the number of its occurrences, the ratings strictly
    ascending, and the text names a row of that table. *)
Theorem tab3_outcome (df : DataFrame) (b : bindings) :
  satisfaction_col b ∈ columns df →
  (present_ratings df b = [] →
   tab3 df b = Ok (None, warning "No satisfaction rating data available.")) ∧
  (present_ratings df b ≠ [] → numeric_ratings df b = [] →
   ∃ e, tab3 df b = Raise e) ∧
  (∀ view msg, tab3 df b = Ok (view, msg) →
     (present_ratings df b = [] ∧ view = None ∧
      msg = warning "No satisfaction rating data available.") ∨
     (∃ table r c,
        view = Some table ∧ msg = most_common_rating_text r (Some c) ∧
        (r, c) ∈ table ∧
        StronglySorted Qclt table.*1 ∧
        ∀ r' c', (r', c') ∈ table ↔
                 r' ∈ numeric_ratings df b ∧
                 c' = occurrences r' (numeric_ratings df b))).
Proof.
  intros Hsat. pose proof (sat_series_present df b Hsat) as Hseries.
  destruct (rating_counts_entries (present_ratings df b))
    as (table & Htable & Hsorted & Hentries & Hnil).
  fold (numeric_ratings df b) in Hentries, Hnil.
  split; [|split].
  - intros Hnone. unfold tab3. rewrite Hseries. cbn [mbind result_bind].
    by rewrite bool_decide_eq_true_2.
  - intros Hsome Hnone. unfold tab3, reset_index. rewrite Hseries.
    cbn [mbind result_bind]. rewrite bool_decide_eq_false_2 by done.
    rewrite Htable. cbn [mbind result_bind].
    destruct (decide (satisfaction_col b = "count")); [by eexists|].
    cbn [mbind result_bind]. rewrite (proj2 Hnil Hnone). by eexists.
  - intros view msg. unfold tab3, reset_index. rewrite Hseries.
    cbn [mbind result_bind].
    destruct (decide (present_ratings df b = [])) as [Hnone|Hsome].
    { rewrite bool_decide_eq_true_2 by done. intros [= <- <-]. by left. }
    rewrite bool_decide_eq_false_2 by done. rewrite Htable.
    cbn [mbind result_bind].
    destruct (decide (satisfaction_col b = "count")); [done|].
    cbn [mbind result_bind].
    destruct table as [|x s]; [done|]. simpl. intros [= <- <-]. right.
    destruct (argmax_from_split Nat.lt lt_cotransitive x s) as (l1 & l2 & Hsplit & _).
    destruct (argmax_from Nat.lt x s) as [r c] eqn:Em.
    exists (x :: s), r, c. split; [done|]. split; [done|].
    split; [rewrite Hsplit; apply elem_of_app; right; left|]. by split.
Qed.

(** X7: the rating tab 3 names as the most common one is a numeric rating of
    the column with the number of its occurrences, no rating occurs more
    often, and among the ratings that occur as often it is the lowest. *)
Theorem tab3_most_common_rating (df : DataFrame) (b : bindings)
    (table : list (Qc * nat)) (r : Qc) (c : option nat) :
  satisfaction_col b ∈ columns df →
  tab3 df b = Ok (Some table, most_common_rating_text r c) →
  r ∈ numeric_ratings df b ∧
  c = Some (occurrences r (numeric_ratings df b)) ∧
  ∀ r', r' ∈ numeric_ratings df b →
        (occurrences r' (numeric_ratings df b)
           ≤ occurrences r (numeric_ratings df b))%nat ∧
        (occurrences r' (numeric_ratings df b) = occurrences r (numeric_ratings df b)
           → r ≤ r').
Proof.
  intros Hsat. unfold tab3, reset_index. rewrite (sat_series_present df b Hsat).
  cbn [mbind result_bind]. destruct (bool_decide _); [done|].
  destruct (rating_counts_entries (present_ratings df b))
    as (table' & -> & Hsorted & Hentries & _).
  cbn [mbind result_bind]. fold (numeric_ratings df b) in Hentries.
  destruct (decide (satisfaction_col b = "count")); [done|].
  cbn [mbind result_bind].
  destruct table' as [|x s]; [done|]. simpl.
  intros [= <- <- <-].
  pose proof (argmax_from_max Nat.lt lt_cotransitive x s) as Hmax.
  destruct (argmax_from_split Nat.lt lt_cotransitive x s)
    as (l1 & l2 & Hsplit & Hl1).
  set (m := argmax_from Nat.lt x s) in *.
  assert (m ∈ x :: s) as Hm.
  { rewrite Hsplit. apply elem_of_app. right. left. }
  destruct m as [r c] eqn:Em. apply Hentries in Hm as [Hr ->].
  split; [done|]. split; [done|]. intros r' Hr'.
  assert ((r', occurrences r' (numeric_ratings df b)) ∈ x :: s) as Hin
    by by apply Hentries.
  rewrite Forall_forall in Hmax. pose proof (Hmax _ Hin) as Hle.
  cbn [fst snd] in *. split; [lia|]. intros Heq.
  rewrite Hsplit in Hin, Hsorted.
  apply elem_of_app in Hin as [Hin|Hin].
  - rewrite Forall_forall in Hl1. specialize (Hl1 _ Hin). cbn [fst snd] in Hl1. lia.
  - apply elem_of_cons in Hin as [[= ->]|Hin]; [done|].
    rewrite fmap_app, fmap_cons in Hsorted.
    apply StronglySorted_app_1_r, StronglySorted_cons in Hsorted as [Hafter _].
    rewrite Forall_forall in Hafter. apply Qclt_le_weak, Hafter.
    by apply (list_elem_of_fmap_2 fst) in Hin.
Qed.

(** X14: a satisfaction column called ["count"] that holds a value stops
    tab 3 at line 189: the counts of line 186 are called ["count"] as
    well, and the table of line 189 cannot hold both. *)
Theorem tab3_raises_on_count_column (df : DataFrame) (b : bindings) :
  satisfaction_col b = "count" → "count" ∈ columns df →
  present_ratings df b ≠ [] →
  tab3 df b = Raise (ValueError "cannot insert count, already exists").
Proof.
  intros Hname Hcol Hsome.
  assert (satisfaction_col b ∈ columns df) as Hsat by by rewrite Hname.
  unfold tab3, reset_index. rewrite (sat_series_present df b Hsat).
  cbn [mbind result_bind]. rewrite bool_decide_eq_false_2 by done.
  destruct (rating_counts_entries (present_ratings df b)) as (table & -> & _).
  cbn [mbind result_bind]. rewrite decide_True by done. by rewrite Hname.
Qed.
End tab3_facts.

Lemma tab3_juice_bar :
  satisfaction_col preferred ∈ columns juice_bar ∧
  (@present_ratings juice_bar preferred = [] →
   @tab3 iso.parsers juice_bar preferred
   = Ok (None, warning "No satisfaction rating data available.")) ∧
  (@present_ratings juice_bar preferred ≠ [] →
   @numeric_ratings iso.parsers juice_bar preferred = [] →
   ∃ e, @tab3 iso.parsers juice_bar preferred = Raise e) ∧
  (∀ view msg, @tab3 iso.parsers juice_bar preferred = Ok (view, msg) →
     (@present_ratings juice_bar preferred = [] ∧ view = None ∧
      msg = warning "No satisfaction rating data available.") ∨
     (∃ table r c,
        view = Some table ∧ msg = most_common_rating_text r (Some c) ∧
        (r, c) ∈ table ∧
        StronglySorted Qclt table.*1 ∧
        ∀ r' c', (r', c') ∈ table ↔
                 r' ∈ @numeric_ratings iso.parsers juice_bar preferred ∧
                 c' = occurrences r' (@numeric_ratings iso.parsers juice_bar preferred))).
Proof.
  assert (satisfaction_col preferred ∈ columns juice_bar) as Hsat by by_evaluation.
  split; [exact Hsat|].
  exact (@tab3_outcome iso.parsers juice_bar preferred Hsat).
Defined.

Lemma most_common_rating_juice_bar :
  satisfaction_col preferred ∈ columns juice_bar ∧
  @tab3 iso.parsers juice_bar preferred
  = Ok (Some [(Qc_of_Z 3, 1%nat); (Qc_of_Z 5, 3%nat)],
        most_common_rating_text (Qc_of_Z 5) (Some 3%nat)) ∧
  Qc_of_Z 5 ∈ @numeric_ratings iso.parsers juice_bar preferred ∧
  Some 3%nat
  = Some (occurrences (Qc_of_Z 5) (@numeric_ratings iso.parsers juice_bar preferred)) ∧
  ∀ r', r' ∈ @numeric_ratings iso.parsers juice_bar preferred →
        (occurrences r' (@numeric_ratings iso.parsers juice_bar preferred)
           ≤ occurrences (Qc_of_Z 5) (@numeric_ratings iso.parsers juice_bar preferred))%nat ∧
        (occurrences r' (@numeric_ratings iso.parsers juice_bar preferred)
           = occurrences (Qc_of_Z 5) (@numeric_ratings iso.parsers juice_bar preferred)
           → Qc_of_Z 5 ≤ r').
Proof.
  assert (satisfaction_col preferred ∈ columns juice_bar) as Hsat by by_evaluation.
  split; [exact Hsat|]. split; [vm_compute; reflexivity|].
  apply (@tab3_most_common_rating iso.parsers juice_bar preferred
           [(Qc_of_Z 3, 1%nat); (Qc_of_Z 5, 3%nat)] (Qc_of_Z 5) (Some 3%nat) Hsat).
  vm_compute. reflexivity.
Defined.

Lemma count_sheet_raises :
  satisfaction_col count_bindings = "count" ∧
  "count" ∈ columns count_sheet ∧
  @present_ratings count_sheet count_bindings ≠ [] ∧
  @tab3 iso.parsers count_sheet count_bindings
  = Raise (ValueError "cannot insert count, already exists").
Proof.
  assert ("count" ∈ columns count_sheet) as Hcol by by_evaluation.
  assert (@present_ratings count_sheet count_bindings ≠ []) as Hsome.
  { intros Hnil. vm_compute in Hnil. discriminate Hnil. }
  split; [reflexivity|]. split; [exact Hcol|]. split; [exact Hsome|].
  exact (@tab3_raises_on_count_column iso.parsers count_sheet count_bindings
           eq_refl Hcol Hsome).
Defined.

Example count_sheet_run :
  @app iso.parsers count_sheet count_bindings
  = Raise (ValueError "cannot insert count, already exists").
Proof. vm_compute. reflexivity. Qed.

(** ** The whole run *)

(** X13: with the category and sales roles bound to one numeric column
    (not the date column), tab 1 stops at line 93: the summary of line 90
    is called after that column and so is its index, and the table of
    line 93 cannot hold both. *)
Theorem tab1_raises_on_shared_category_and_sales (dfc : DataFrame) (b : bindings) :
  category_col b = sales_col b → sales_col b ∈ columns dfc →
  sales_col b ≠ date_col b → numeric_sales b (rows dfc) →
  tab1 dfc b
  = Raise (ValueError ("cannot insert " +:+ sales_col b +:+ ", already exists")).
Proof.
  intros Heq Hs _ Hnum. unfold tab1, reset_index, category_sales, getitem.
  rewrite Heq. rewrite !decide_True by done. cbn [mbind result_bind].
  destruct (groupby_sum_summable value_le
              (key_of <$> ((λ ir, cell ir.2 (sales_col b)) <$> rows dfc))
              ((λ ir, cell ir.2 (sales_col b)) <$> rows dfc)) as [totals ->].
  { by apply numeric_sales_summable. }
  cbn [mbind result_bind]. by rewrite decide_True.
Qed.

Lemma tally_sheet_raises :
  category_col tally_bindings = sales_col tally_bindings ∧
  sales_col tally_bindings ∈ columns tally_clean ∧
  sales_col tally_bindings ≠ date_col tally_bindings ∧
  numeric_sales tally_bindings (rows tally_clean) ∧
  tab1 tally_clean tally_bindings
  = Raise (ValueError ("cannot insert " +:+ sales_col tally_bindings
                       +:+ ", already exists")).
Proof.
  assert (sales_col tally_bindings ∈ columns tally_clean) as Hs by by_evaluation.
  assert (numeric_sales tally_bindings (rows tally_clean)) as Hnum by by_evaluation.
  assert (sales_col tally_bindings ≠ date_col tally_bindings) as Hne by discriminate.
  split; [reflexivity|]. split; [exact Hs|]. split; [exact Hne|].
  split; [exact Hnum|].
  exact (tab1_raises_on_shared_category_and_sales tally_clean tally_bindings
           eq_refl Hs Hne Hnum).
Defined.

Example tally_sheet_default_run :
  sidebar tally_sheet = Some tally_bindings ∧
  @df_clean (@coerced iso.parsers tally_sheet tally_bindings) tally_bindings
  = Ok tally_clean ∧
  @run_with_defaults iso.parsers tally_sheet
  = Some (Raise (ValueError "cannot insert Amount, already exists")).
Proof. repeat split; vm_compute; reflexivity. Qed.

Section run_facts.
Context `{Parsers}.

Lemma run_raises_TypeError (df : DataFrame) (b : bindings) (df' dfc : DataFrame) :
  coerce_columns df b = Ok df' → df_clean df' b = Ok dfc →
  sales_col b = date_col b → rows dfc ≠ [] →
  app df b = Raise (TypeError "datetime64 type does not support sum operations").
Proof.
  intros Hrun Hclean Heq Hrows. unfold app. rewrite Hrun. cbn [mbind result_bind].
  rewrite Hclean. cbn [mbind result_bind]. unfold tab1.
  by rewrite (category_sales_of_dates _ _ _ _ Hrun Hclean Heq Hrows).
Qed.

(** X9: with the sales and date roles on one column, a run in which any row
    survives the cleaning ends in tab 1 with a [TypeError]: the sales
    cells have become timestamps and cannot be summed. *)
Theorem app_raises_on_shared_sales_and_date (df : DataFrame) (b : bindings)
    (df' dfc : DataFrame) :
  coerce_columns df b = Ok df' → df_clean df' b = Ok dfc →
  sales_col b = date_col b → rows dfc ≠ [] →
  app df b = Raise (TypeError "datetime64 type does not support sum operations").
Proof. apply run_raises_TypeError. Qed.

(** X10: on a sheet that has neither a "Sales" nor a "Date Ordered" column the
    default bindings put both roles on the first column, and the default
    run stops with a [TypeError] as soon as one row survives the
    cleaning. *)
Theorem defaults_share_the_first_column (df : DataFrame) (c : string) (cols : list string) :
  columns df = c :: cols →
  "Sales" ∉ columns df → "Date Ordered" ∉ columns df →
  ∃ b, sidebar df = Some b ∧ sales_col b = c ∧ date_col b = c ∧
       ∀ df' dfc, coerce_columns df b = Ok df' → df_clean df' b = Ok dfc →
                  rows dfc ≠ [] →
                  run_with_defaults df
                  = Some (Raise (TypeError "datetime64 type does not support sum operations")).
Proof.
  intros Hcols Hsales Hdate.
  assert (sidebar df
    = Some {| category_col := default_column (columns df) c "Category";
              sales_col := default_column (columns df) c "Sales";
              date_col := default_column (columns df) c "Date Ordered";
              satisfaction_col :=
                default_column (columns df) c "Service Satisfaction Rating" |})
    as Hside.
  { unfold sidebar. rewrite Hcols, !defaultBinding_default_column. reflexivity. }
  assert (default_column (columns df) c "Sales" = c) as Hs.
  { unfold default_column. by rewrite decide_False. }
  assert (default_column (columns df) c "Date Ordered" = c) as Hd.
  { unfold default_column. by rewrite decide_False. }
  eexists. split; [exact Hside|]. cbn [sales_col date_col].
  split; [exact Hs|]. split; [exact Hd|]. intros df' dfc Hrun Hclean Hrows.
  unfold run_with_defaults. rewrite Hside. simpl. f_equal.
  eapply run_raises_TypeError; [exact Hrun|exact Hclean| |done].
  cbn [sales_col date_col]. by rewrite Hs, Hd.
Qed.
End run_facts.

Lemma app_raises_amount_sheet :
  @coerce_columns iso.parsers amount_sheet amount_bindings = Ok amount_coerced ∧
  df_clean amount_coerced amount_bindings = Ok amount_clean ∧
  sales_col amount_bindings = date_col amount_bindings ∧
  rows amount_clean ≠ [] ∧
  @app iso.parsers amount_sheet amount_bindings
  = Raise (TypeError "datetime64 type does not support sum operations").
Proof.
  assert (rows amount_clean ≠ []) as Hrows.
  { intros Hnil. vm_compute in Hnil. discriminate Hnil. }
  split; [vm_compute; reflexivity|]. split; [vm_compute; reflexivity|].
  split; [reflexivity|]. split; [exact Hrows|].
  apply (@app_raises_on_shared_sales_and_date iso.parsers
           amount_sheet amount_bindings amount_coerced amount_clean);
    [vm_compute; reflexivity | vm_compute; reflexivity | reflexivity | exact Hrows].
Defined.

Lemma defaults_of_amount_sheet :
  columns amount_sheet = "Amount" :: ["Note"] ∧
  ("Sales" ∉ columns amount_sheet) ∧ ("Date Ordered" ∉ columns amount_sheet) ∧
  ∃ b, sidebar amount_sheet = Some b ∧ sales_col b = "Amount" ∧ date_col b = "Amount" ∧
       ∀ df' dfc, @coerce_columns iso.parsers amount_sheet b = Ok df' →
                  df_clean df' b = Ok dfc → rows dfc ≠ [] →
                  @run_with_defaults iso.parsers amount_sheet
                  = Some (Raise (TypeError "datetime64 type does not support sum operations")).
Proof.
  assert ("Sales" ∉ columns amount_sheet) as Hsales by by_evaluation.
  assert ("Date Ordered" ∉ columns amount_sheet) as Hdate by by_evaluation.
  split; [reflexivity|]. split; [exact Hsales|]. split; [exact Hdate|].
  exact (@defaults_share_the_first_column iso.parsers amount_sheet "Amount" ["Note"]
           eq_refl Hsales Hdate).
Defined.

Example amount_sheet_default_run :
  @run_with_defaults iso.parsers amount_sheet
  = Some (Raise (TypeError "datetime64 type does not support sum operations")).
Proof. vm_compute. reflexivity. Qed.
